(** * UGC internship portal: the two page scripts

    A shallow embedding of [static/js/upload.js] (the upload page) and
    [static/js/student_form.js] (the review form), and the properties of
    the confidence-gated review workflow they implement.

    Each listener is a function on the state of its page: the DOM elements
    the script reads and writes, its module-level variables, the requests it
    has issued through [fetch], and the address assigned to
    [window.location.href].  What the network answers is an argument of the
    listener.  An [await] is modelled as the listener running to completion
    with that answer. *)

From Stdlib Require Import Ascii QArith Lqa.
From stdpp Require Import gmap strings list pretty.

Local Open Scope string_scope.
Local Open Scope list_scope.

(** ** What a [fetch] can answer *)

(** [response.json()] either yields the parsed body or rejects. *)
Inductive json_outcome (A : Type) :=
| JsonData (data : A)
| JsonRejected (message : string).
Arguments JsonData {A} data.
Arguments JsonRejected {A} message.

(** [fetch] rejects on a network failure, with the error's [message];
    otherwise it resolves to a response whose [ok] flag tells a 2xx status. *)
Inductive fetch_outcome (A : Type) :=
| FetchRejected (message : string)
| FetchResponse (ok : bool) (json : json_outcome A).
Arguments FetchRejected {A} message.
Arguments FetchResponse {A} ok json.

(** A request failed when the promise rejected or the status was not 2xx. *)
Definition request_failed {A} (net : fetch_outcome A) : Prop :=
  match net with
  | FetchRejected _ => True
  | FetchResponse ok _ => ok = false
  end.

(** ** upload.js *)

Module Upload.

(** [String.prototype.trim] on the white space of the byte strings used
    here: TAB, LF, VT, FF, CR and SPACE. *)
Definition is_white_space (a : ascii) : bool :=
  match a with
  | "009" | "010" | "011" | "012" | "013" | " " => true
  | _ => false
  end%char.

Fixpoint trimStart (s : string) : string :=
  match s with
  | String a s' => if is_white_space a then trimStart s' else s
  | EmptyString => EmptyString
  end.

Definition trim (s : string) : string :=
  String.rev (trimStart (String.rev (trimStart s))).

(** The body of the POST to [/api/upload_certificate]. *)
Inductive Body :=
| Multipart (file : string)        (* FormData with the entry [file] *)
| JsonText (text : string).        (* JSON.stringify({text: ...}) *)

Record Page := {
  files : list string;               (* certificateFile.files *)
  text : string;                     (* certificateText.value *)
  errorSection_display : string;     (* errorSection.style.display *)
  errorSection_textContent : string;
  progressSection_display : string;
  progressBar_width : string;
  progressBar_textContent : string;
  progressText_textContent : string;
  extractBtn_disabled : bool;
  requests : list Body;              (* the fetch calls issued so far *)
  location : option string           (* the last window.location.href = ... *)
}.

Definition updateProgress (percent : N) (txt : string) (p : Page) : Page :=
  {| files := files p; text := text p;
     errorSection_display := errorSection_display p;
     errorSection_textContent := errorSection_textContent p;
     progressSection_display := progressSection_display p;
     progressBar_width := pretty percent +:+ "%";
     progressBar_textContent := pretty percent +:+ "%";
     progressText_textContent := txt;
     extractBtn_disabled := extractBtn_disabled p;
     requests := requests p; location := location p |}.

Definition showError (message : string) (p : Page) : Page :=
  {| files := files p; text := text p;
     errorSection_display := "block";
     errorSection_textContent := message;
     progressSection_display := progressSection_display p;
     progressBar_width := progressBar_width p;
     progressBar_textContent := progressBar_textContent p;
     progressText_textContent := progressText_textContent p;
     extractBtn_disabled := extractBtn_disabled p;
     requests := requests p; location := location p |}.

(** Lines 27-29: hide the error, show the progress section, disable the
    button. *)
Definition showProgress (p : Page) : Page :=
  {| files := files p; text := text p;
     errorSection_display := "none";
     errorSection_textContent := errorSection_textContent p;
     progressSection_display := "block";
     progressBar_width := progressBar_width p;
     progressBar_textContent := progressBar_textContent p;
     progressText_textContent := progressText_textContent p;
     extractBtn_disabled := true;
     requests := requests p; location := location p |}.

Definition send (b : Body) (p : Page) : Page :=
  {| files := files p; text := text p;
     errorSection_display := errorSection_display p;
     errorSection_textContent := errorSection_textContent p;
     progressSection_display := progressSection_display p;
     progressBar_width := progressBar_width p;
     progressBar_textContent := progressBar_textContent p;
     progressText_textContent := progressText_textContent p;
     extractBtn_disabled := extractBtn_disabled p;
     requests := requests p ++ [b]; location := location p |}.

Definition navigate (url : string) (p : Page) : Page :=
  {| files := files p; text := text p;
     errorSection_display := errorSection_display p;
     errorSection_textContent := errorSection_textContent p;
     progressSection_display := progressSection_display p;
     progressBar_width := progressBar_width p;
     progressBar_textContent := progressBar_textContent p;
     progressText_textContent := progressText_textContent p;
     extractBtn_disabled := extractBtn_disabled p;
     requests := requests p; location := Some url |}.

(** The [catch] block, lines 76-80. *)
Definition catch (message : string) (p : Page) : Page :=
  let p := showError ("Extraction failed: " +:+ message) p in
  {| files := files p; text := text p;
     errorSection_display := errorSection_display p;
     errorSection_textContent := errorSection_textContent p;
     progressSection_display := "none";
     progressBar_width := progressBar_width p;
     progressBar_textContent := progressBar_textContent p;
     progressText_textContent := progressText_textContent p;
     extractBtn_disabled := false;
     requests := requests p; location := location p |}.

Definition hasFile (p : Page) : bool := bool_decide (0 < length (files p)).
Definition hasText (p : Page) : bool :=
  bool_decide (0 < String.length (trim (text p))).

(** The request of lines 43-57: the first file when there is one, the pasted
    text otherwise. *)
Definition request (p : Page) : Body :=
  match files p with
  | file :: _ => Multipart file       (* hasFile: certificateFile.files[0] *)
  | [] => JsonText (text p)
  end.

(** The click listener of [extractBtn]; [net] is what the upload request is
    answered with, the data of a parsed body being its [redirect_url]. *)
Definition click (net : fetch_outcome string) (p : Page) : Page :=
  if negb (hasFile p) && negb (hasText p) then
    showError "Please upload a file or paste certificate text" p
  else if hasFile p && hasText p then
    showError "Please use either file upload or text paste, not both" p
  else
    let p := showProgress p in
    (* try *)
    let p := updateProgress 25 "Received → Processing..." p in
    let p := updateProgress 50 "OCR → Extracting text..." p in
    let p := send (request p) p in
    match net with
    | FetchRejected message => catch message p
    | FetchResponse false _ => catch "Upload failed" p
    | FetchResponse true json =>
        let p := updateProgress 75 "Extracting fields → Analyzing..." p in
        match json with
        | JsonRejected message => catch message p
        | JsonData redirect_url =>
            let p := updateProgress 100 "Done → Redirecting..." p in
            navigate redirect_url p
        end
    end.

End Upload.

(** ** student_form.js *)

(** How JavaScript code that may throw ends: with a value, or with the
    [message] of the error thrown. *)
Inductive result (A : Type) :=
| Ok (a : A)
| Throw (message : string).
Arguments Ok {A} a.
Arguments Throw {A} message.

#[global] Instance result_ret : MRet result := λ A a, Ok a.

#[global] Instance result_bind : MBind result := λ A B k r,
  match r with
  | Ok a => k a
  | Throw message => Throw message
  end.

Module StudentForm.

(** One entry of [data.extracted_fields].  [value] is the extracted text,
    the empty string standing for every falsy value; [conf] is the score,
    [None] when the entry has no numeric [conf].  A score is a finite
    double, hence a rational; 0.75, 0.5 and 0 are doubles, so the
    comparisons of the script are exact on [Q]. *)
Record ExtractedField := {
  value : string;
  conf : option Q
}.

(** Lines 15-24, as [Object.entries] enumerates it: API name, control id. *)
Definition fieldMap : list (string * string) :=
  [ ("name", "name");
    ("apaar_id", "apaarId");
    ("institution_code", "institutionCode");
    ("organization", "organization");
    ("internship_title", "internshipTitle");
    ("start_date", "startDate");
    ("end_date", "endDate");
    ("hours", "hours") ].

(** An [input], [textarea] or [select] of the page. *)
Record Input := {
  input_value : string;
  classList : list string
}.

(** The text of a badge.  In the three confidence texts the number shown is
    [(conf * 100).toFixed(0)], a function of [conf]. *)
Inductive badge_text :=
| Plain (s : string)
| HighConfidenceText (conf : Q)      (* ✓ High confidence (..%) *)
| MediumConfidenceText (conf : Q)    (* ⚠ Medium confidence (..%) - Please verify *)
| LowConfidenceText (conf : Q).      (* ⚠ Low confidence (..%) - Please verify *)

(** The element [<id>_conf] under a control. *)
Record ConfDiv := {
  className : string;
  textContent : badge_text
}.

(** [confidenceIndicator]. *)
Record Banner := {
  banner_display : string;
  banner_className : string;
  innerHTML : string
}.

Record Button := {
  disabled : bool;
  label : string                      (* submitBtn.textContent *)
}.

(** One entry of [field_confidences] in the posted payload. *)
Record ConfEntry := {
  entry_value : string;
  entry_conf : Q
}.

(** The object serialized into the body of the POST to
    [/api/submit_internship]. *)
Record FormData := {
  upload_id : string;
  fd_name : string;
  apaar_id : string;
  institution_code : string;
  organization : string;
  internship_title : string;
  start_date : string;
  end_date : string;
  hours : string;
  level : string;
  logs : string;
  field_confidences : gmap string ConfEntry
}.

Record Page := {
  uploadId : string;
  inputs : gmap string Input;               (* the controls, by id *)
  confDivs : gmap string ConfDiv;           (* the badges, by id *)
  confidenceIndicator : Banner;
  errorSection_display : string;
  errorSection_textContent : string;
  submitBtn : option Button;                (* the element #submitBtn *)
  modalShown : bool;                        (* confirmModal *)
  fieldConfidences : gmap string Q;
  hasLowConfidence : bool;
  requests : list FormData;                 (* submissions posted so far *)
  location : option string
}.

Definition with_inputs (m : gmap string Input) (s : Page) : Page :=
  {| uploadId := uploadId s; inputs := m; confDivs := confDivs s;
     confidenceIndicator := confidenceIndicator s;
     errorSection_display := errorSection_display s;
     errorSection_textContent := errorSection_textContent s;
     submitBtn := submitBtn s; modalShown := modalShown s;
     fieldConfidences := fieldConfidences s;
     hasLowConfidence := hasLowConfidence s;
     requests := requests s; location := location s |}.

Definition with_confDivs (m : gmap string ConfDiv) (s : Page) : Page :=
  {| uploadId := uploadId s; inputs := inputs s; confDivs := m;
     confidenceIndicator := confidenceIndicator s;
     errorSection_display := errorSection_display s;
     errorSection_textContent := errorSection_textContent s;
     submitBtn := submitBtn s; modalShown := modalShown s;
     fieldConfidences := fieldConfidences s;
     hasLowConfidence := hasLowConfidence s;
     requests := requests s; location := location s |}.

Definition with_confidenceIndicator (b : Banner) (s : Page) : Page :=
  {| uploadId := uploadId s; inputs := inputs s; confDivs := confDivs s;
     confidenceIndicator := b;
     errorSection_display := errorSection_display s;
     errorSection_textContent := errorSection_textContent s;
     submitBtn := submitBtn s; modalShown := modalShown s;
     fieldConfidences := fieldConfidences s;
     hasLowConfidence := hasLowConfidence s;
     requests := requests s; location := location s |}.

Definition with_errorSection (display message : string) (s : Page) : Page :=
  {| uploadId := uploadId s; inputs := inputs s; confDivs := confDivs s;
     confidenceIndicator := confidenceIndicator s;
     errorSection_display := display;
     errorSection_textContent := message;
     submitBtn := submitBtn s; modalShown := modalShown s;
     fieldConfidences := fieldConfidences s;
     hasLowConfidence := hasLowConfidence s;
     requests := requests s; location := location s |}.

Definition with_submitBtn (b : Button) (s : Page) : Page :=
  {| uploadId := uploadId s; inputs := inputs s; confDivs := confDivs s;
     confidenceIndicator := confidenceIndicator s;
     errorSection_display := errorSection_display s;
     errorSection_textContent := errorSection_textContent s;
     submitBtn := Some b; modalShown := modalShown s;
     fieldConfidences := fieldConfidences s;
     hasLowConfidence := hasLowConfidence s;
     requests := requests s; location := location s |}.

Definition with_modalShown (b : bool) (s : Page) : Page :=
  {| uploadId := uploadId s; inputs := inputs s; confDivs := confDivs s;
     confidenceIndicator := confidenceIndicator s;
     errorSection_display := errorSection_display s;
     errorSection_textContent := errorSection_textContent s;
     submitBtn := submitBtn s; modalShown := b;
     fieldConfidences := fieldConfidences s;
     hasLowConfidence := hasLowConfidence s;
     requests := requests s; location := location s |}.

Definition with_fieldConfidences (m : gmap string Q) (s : Page) : Page :=
  {| uploadId := uploadId s; inputs := inputs s; confDivs := confDivs s;
     confidenceIndicator := confidenceIndicator s;
     errorSection_display := errorSection_display s;
     errorSection_textContent := errorSection_textContent s;
     submitBtn := submitBtn s; modalShown := modalShown s;
     fieldConfidences := m;
     hasLowConfidence := hasLowConfidence s;
     requests := requests s; location := location s |}.

Definition with_hasLowConfidence (b : bool) (s : Page) : Page :=
  {| uploadId := uploadId s; inputs := inputs s; confDivs := confDivs s;
     confidenceIndicator := confidenceIndicator s;
     errorSection_display := errorSection_display s;
     errorSection_textContent := errorSection_textContent s;
     submitBtn := submitBtn s; modalShown := modalShown s;
     fieldConfidences := fieldConfidences s;
     hasLowConfidence := b;
     requests := requests s; location := location s |}.

Definition with_requests (l : list FormData) (s : Page) : Page :=
  {| uploadId := uploadId s; inputs := inputs s; confDivs := confDivs s;
     confidenceIndicator := confidenceIndicator s;
     errorSection_display := errorSection_display s;
     errorSection_textContent := errorSection_textContent s;
     submitBtn := submitBtn s; modalShown := modalShown s;
     fieldConfidences := fieldConfidences s;
     hasLowConfidence := hasLowConfidence s;
     requests := l; location := location s |}.

Definition with_location (url : string) (s : Page) : Page :=
  {| uploadId := uploadId s; inputs := inputs s; confDivs := confDivs s;
     confidenceIndicator := confidenceIndicator s;
     errorSection_display := errorSection_display s;
     errorSection_textContent := errorSection_textContent s;
     submitBtn := submitBtn s; modalShown := modalShown s;
     fieldConfidences := fieldConfidences s;
     hasLowConfidence := hasLowConfidence s;
     requests := requests s; location := Some url |}.

(** [classList.add] and [classList.remove]: a token list without repeats. *)
Definition classList_add (c : string) (l : list string) : list string :=
  if bool_decide (c ∈ l) then l else l ++ [c].

Definition classList_remove (c : string) (l : list string) : list string :=
  filter (λ x, x ≠ c) l.

(** *** Confidence levels *)

Inductive Level := High | Medium | Low | Unset.

#[global] Instance Level_eq_dec : EqDecision Level.
Proof. solve_decision. Defined.

Definition Qlt_bool (x y : Q) : bool :=
  (Qnum x * QDen y <? Qnum y * QDen x)%Z.

(** [fields[apiField].conf || 0], line 53: zero is falsy as well. *)
Definition conf_or_zero (c : option Q) : Q :=
  match c with
  | Some q => if Qeq_bool q 0 then 0%Q else q
  | None => 0%Q
  end.

(** The branch that the cascade of lines 70-85 takes: [conf >= 0.75],
    else [conf >= 0.5], else [conf > 0], else none of them. *)
Definition confidence_level (conf : Q) : Level :=
  if Qle_bool (3 # 4) conf then High
  else if Qle_bool (1 # 2) conf then Medium
  else if Qlt_bool 0 conf then Low
  else Unset.

(** What each branch writes into the badge; no branch, no change. *)
Definition showConfidence (conf : Q) (confDiv : ConfDiv) : ConfDiv :=
  match confidence_level conf with
  | High =>
      {| className := "field-confidence confidence-high";
         textContent := HighConfidenceText conf |}
  | Medium =>
      {| className := "field-confidence confidence-medium";
         textContent := MediumConfidenceText conf |}
  | Low =>
      {| className := "field-confidence confidence-low";
         textContent := LowConfidenceText conf |}
  | Unset => confDiv
  end.

(** The Medium and Low branches also mark the control and lower the flags. *)
Definition needs_verification (conf : Q) : bool :=
  match confidence_level conf with
  | Medium | Low => true
  | High | Unset => false
  end.

(** *** autoFillForm *)

Definition all_high_banner : Banner :=
  {| banner_display := "block";
     banner_className := "alert confidence-indicator-all-high";
     innerHTML := "<strong>✅ All fields high confidence</strong> - Auto-filled data looks accurate" |}.

Definition needs_attention_banner : Banner :=
  {| banner_display := "block";
     banner_className := "alert confidence-indicator-needs-attention";
     innerHTML := "<strong>⚠️ Some fields require your attention</strong> - Please review and verify highlighted fields" |}.

(** One turn of the loop of lines 50-89.  The state of the loop is the page
    and the local [allHighConfidence]. *)
Definition fillField (fields : gmap string ExtractedField)
    (st : Page * bool) (entry : string * string) : Page * bool :=
  let '(s, allHighConfidence) := st in
  let '(apiField, formField) := entry in
  match fields !! apiField with
  | None => st
  | Some f =>
      let conf := conf_or_zero (conf f) in
      match inputs s !! formField with
      | None => st
      | Some input =>
          if bool_decide (value f = "") then st
          else
            let input :=
              {| input_value := value f;
                 classList := classList_add "animate-fill" (classList input) |} in
            let s := with_inputs (<[formField := input]> (inputs s)) s in
            let s := with_fieldConfidences
                       (<[formField := conf]> (fieldConfidences s)) s in
            match confDivs s !! (formField +:+ "_conf") with
            | None => (s, allHighConfidence)
            | Some confDiv =>
                let s := with_confDivs
                           (<[formField +:+ "_conf" := showConfidence conf confDiv]>
                              (confDivs s)) s in
                if needs_verification conf then
                  let input :=
                    {| input_value := input_value input;
                       classList :=
                         classList_add "low-confidence-field" (classList input) |} in
                  let s := with_inputs (<[formField := input]> (inputs s)) s in
                  (with_hasLowConfidence true s, false)
                else (s, allHighConfidence)
            end
      end
  end.

Definition autoFillForm (fields : gmap string ExtractedField) (s : Page) : Page :=
  let s := with_hasLowConfidence false s in
  let '(s, allHighConfidence) := foldl (fillField fields) (s, true) fieldMap in
  if bool_decide (0 < size fields) then
    with_confidenceIndicator
      (if allHighConfidence && negb (hasLowConfidence s)
       then all_high_banner else needs_attention_banner) s
  else s.

(** [loadExtractedData]: the fields of the answer are auto-filled; a failed
    load is logged to the console and leaves the form as it is. *)
Definition loadExtractedData
    (net : fetch_outcome (gmap string ExtractedField)) (s : Page) : Page :=
  match net with
  | FetchResponse _ (JsonData extracted_fields) => autoFillForm extracted_fields s
  | FetchResponse _ (JsonRejected _) | FetchRejected _ => s
  end.

(** Lines 26-29: the data are loaded only when the page was reached from
    an upload. *)
Definition pageLoad (fromUpload : string)
    (net : fetch_outcome (gmap string ExtractedField)) (s : Page) : Page :=
  if bool_decide (fromUpload = "1") && negb (bool_decide (uploadId s = ""))
  then loadExtractedData net s
  else s.

(** *** The change listener *)

(** Lines 107-119, for the control [id]. *)
Definition onChange (id : string) (s : Page) : Page :=
  match inputs s !! id with
  | None => s
  | Some field =>
      let field :=
        {| input_value := input_value field;
           classList :=
             classList_add "field-verified"
               (classList_remove "low-confidence-field" (classList field)) |} in
      let s := with_inputs (<[id := field]> (inputs s)) s in
      let s := with_fieldConfidences (<[id := 1%Q]> (fieldConfidences s)) s in
      match confDivs s !! (id +:+ "_conf") with
      | None => s
      | Some _ =>
          with_confDivs
            (<[id +:+ "_conf" :=
                 {| className := "field-confidence confidence-high";
                    textContent := Plain "✓ Verified by student" |}]>
               (confDivs s)) s
      end
  end.

(** The user gives the control [id] the value [v]; the browser then fires
    its change event. *)
Definition edit (id v : string) (s : Page) : Page :=
  match inputs s !! id with
  | None => s
  | Some field =>
      onChange id
        (with_inputs
           (<[id := {| input_value := v; classList := classList field |}]>
              (inputs s)) s)
  end.

(** *** Submission *)

(** [document.getElementById(id).value] *)
Definition valueOf (id : string) (s : Page) : result string :=
  match inputs s !! id with
  | Some field => Ok (input_value field)
  | None => Throw "Cannot read properties of null (reading 'value')"
  end.

Definition buildConfidenceObject (s : Page) : result (gmap string ConfEntry) :=
  foldl
    (λ acc '(apiField, formField),
       result ← acc;
       match fieldConfidences s !! formField with
       | Some c =>
           v ← valueOf formField s;
           Ok (<[apiField := {| entry_value := v; entry_conf := c |}]> result)
       | None => Ok result
       end)
    (Ok ∅) fieldMap.

(** Lines 147-160. *)
Definition collectFormData (s : Page) : result FormData :=
  name ← valueOf "name" s;
  apaar_id ← valueOf "apaarId" s;
  institution_code ← valueOf "institutionCode" s;
  organization ← valueOf "organization" s;
  internship_title ← valueOf "internshipTitle" s;
  start_date ← valueOf "startDate" s;
  end_date ← valueOf "endDate" s;
  hours ← valueOf "hours" s;
  level ← valueOf "level" s;
  logs ← valueOf "logs" s;
  field_confidences ← buildConfidenceObject s;
  Ok {| upload_id := uploadId s; fd_name := name; apaar_id := apaar_id;
        institution_code := institution_code; organization := organization;
        internship_title := internship_title; start_date := start_date;
        end_date := end_date; hours := hours; level := level; logs := logs;
        field_confidences := field_confidences |}.

(** How the promise of an async function settles. *)
Inductive completion :=
| Fulfilled
| Rejected (message : string).

Definition original_label : string := "Submit for Credit Evaluation".

(** The [catch] block of [submitForm], lines 177-182.  The constant
    [submitBtn] of the [try] block is out of scope here: the identifier is
    looked up on the global object, where the browser answers with the
    element whose id is [submitBtn]; without such an element the lookup
    throws and the promise rejects. *)
Definition catch (message : string) (s : Page) : Page * completion :=
  let s := with_errorSection "block" ("Submission failed: " +:+ message) s in
  match submitBtn s with
  | Some _ =>
      (with_submitBtn {| disabled := false; label := original_label |} s,
       Fulfilled)
  | None => (s, Rejected "submitBtn is not defined")
  end.

(** [submitForm]; [net] is what the POST is answered with, the data of a
    parsed body being its [redirect_url]. *)
Definition submitForm (net : fetch_outcome string) (s : Page) : Page * completion :=
  match submitBtn s with
  | None => catch "Cannot set properties of null (setting 'disabled')" s
  | Some _ =>
      let s := with_submitBtn {| disabled := true; label := "Processing..." |} s in
      match collectFormData s with
      | Throw message => catch message s
      | Ok formData =>
          let s := with_requests (requests s ++ [formData]) s in
          match net with
          | FetchRejected message => catch message s
          | FetchResponse false _ => catch "Submission failed" s
          | FetchResponse true (JsonRejected message) => catch message s
          | FetchResponse true (JsonData redirect_url) =>
              (with_location redirect_url s, Fulfilled)
          end
      end
  end.

(** The submit listener of the form, lines 123-133. *)
Definition submit (net : fetch_outcome string) (s : Page) : Page * completion :=
  if hasLowConfidence s then (with_modalShown true s, Fulfilled)
  else submitForm net s.

(** The click listener of [confirmSubmit], lines 135-138. *)
Definition confirmSubmit (net : fetch_outcome string) (s : Page) : Page * completion :=
  submitForm net (with_modalShown false s).

(** *** The page as a transition system *)

Inductive event :=
| AutoFill (fields : gmap string ExtractedField)
| Edit (id v : string)
| Submit (net : fetch_outcome string)
| ConfirmSubmit (net : fetch_outcome string).

Definition step (s : Page) (e : event) : Page :=
  match e with
  | AutoFill fields => autoFillForm fields s
  | Edit id v => edit id v s
  | Submit net => (submit net s).1
  | ConfirmSubmit net => (confirmSubmit net s).1
  end.

Definition run (s : Page) (es : list event) : Page := foldl step s es.

(** The page as the script finds it: nothing recorded, the flag down, the
    modal closed. *)
Definition fresh (s : Page) : Prop :=
  fieldConfidences s = ∅ ∧ hasLowConfidence s = false ∧ modalShown s = false.

Inductive reachable : Page → Prop :=
| reachable_fresh s : fresh s → reachable s
| reachable_step s e : reachable s → reachable (step s e).

Definition is_AutoFill (e : event) : bool :=
  match e with
  | AutoFill _ => true
  | _ => false
  end.

End StudentForm.

(** * Closed forms, sample pages and the vocabulary of the statements *)

Import StudentForm.

(** An upload page with pasted text and no file chosen. *)
Definition pasted_page : Upload.Page :=
  {| Upload.files := [];
     Upload.text := "  Certificate of internship ";
     Upload.errorSection_display := "none";
     Upload.errorSection_textContent := "";
     Upload.progressSection_display := "none";
     Upload.progressBar_width := "0%";
     Upload.progressBar_textContent := "";
     Upload.progressText_textContent := "";
     Upload.extractBtn_disabled := false;
     Upload.requests := [];
     Upload.location := None |}.

(** What the page shows after the [catch] block for a failed request. *)
Definition failure_text (net : fetch_outcome string) : string :=
  match net with
  | FetchRejected message => "Extraction failed: " +:+ message
  | FetchResponse _ _ => "Extraction failed: Upload failed"
  end.

(** What a turn writes, when it writes at all: the control, the recorded
    score, the badge when there is one, and whether the flags are lowered. *)
Record Fill := {
  fill_input : Input;
  fill_conf : Q;
  fill_div : option ConfDiv;
  fill_low : bool
}.

Definition plan (fields : gmap string ExtractedField) (s : Page)
    (e : string * string) : option Fill :=
  match fields !! e.1, inputs s !! e.2 with
  | Some f, Some i =>
      if bool_decide (value f = "") then None
      else
        let c := conf_or_zero (conf f) in
        let filled := classList_add "animate-fill" (classList i) in
        match confDivs s !! (e.2 +:+ "_conf") with
        | None =>
            Some {| fill_input := {| input_value := value f; classList := filled |};
                    fill_conf := c; fill_div := None; fill_low := false |}
        | Some d =>
            Some {| fill_input :=
                      {| input_value := value f;
                         classList :=
                           if needs_verification c
                           then classList_add "low-confidence-field" filled
                           else filled |};
                    fill_conf := c;
                    fill_div := Some (showConfidence c d);
                    fill_low := needs_verification c |}
        end
  | _, _ => None
  end.

Definition write (form : string) (w : Fill) (st : Page * bool) : Page * bool :=
  ({| uploadId := uploadId st.1;
      inputs := <[form := fill_input w]> (inputs st.1);
      confDivs :=
        match fill_div w with
        | Some d => <[form +:+ "_conf" := d]> (confDivs st.1)
        | None => confDivs st.1
        end;
      confidenceIndicator := confidenceIndicator st.1;
      errorSection_display := errorSection_display st.1;
      errorSection_textContent := errorSection_textContent st.1;
      submitBtn := submitBtn st.1;
      modalShown := modalShown st.1;
      fieldConfidences := <[form := fill_conf w]> (fieldConfidences st.1);
      hasLowConfidence := hasLowConfidence st.1 || fill_low w;
      requests := requests st.1;
      location := location st.1 |},
   st.2 && negb (fill_low w)).

Definition turn (fields : gmap string ExtractedField)
    (st : Page * bool) (e : string * string) : Page * bool :=
  match plan fields st.1 e with
  | Some w => write e.2 w st
  | None => st
  end.

(** Whether the turn for [e] lowers the flags: the field has a value, its
    control and its badge are on the page, and the score is medium or low. *)
Definition lowers (fields : gmap string ExtractedField) (s : Page)
    (e : string * string) : bool :=
  match fields !! e.1 with
  | Some f =>
      negb (bool_decide (value f = ""))
      && bool_decide (is_Some (inputs s !! e.2))
      && bool_decide (is_Some (confDivs s !! (e.2 +:+ "_conf")))
      && needs_verification (conf_or_zero (conf f))
  | None => false
  end.

Definition loop (fields : gmap string ExtractedField) (st : Page * bool) : Page * bool :=
  foldl (turn fields) st fieldMap.

(** Whether some turn lowers the flags. *)
Definition attention (fields : gmap string ExtractedField) (s : Page) : bool :=
  existsb (lowers fields s) fieldMap.

Definition banner_of (low : bool) : Banner :=
  if low then needs_attention_banner else all_high_banner.

Definition blank : Input :=
  {| input_value := ""; classList := ["form-control"] |}.

Definition no_badge : ConfDiv :=
  {| className := "field-confidence";
     textContent := Plain "" |}.

(** A review page as the script finds it: the eight scored controls with
    their badges, the controls [level] and [logs], a hidden banner and the
    submit button. *)
Definition review_page : Page :=
  {| uploadId := "42";
     inputs :=
       list_to_map ((λ id, (id, blank)) <$>
         (fieldMap.*2 ++ ["level"; "logs"]));
     confDivs :=
       list_to_map ((λ id, (id +:+ "_conf", no_badge)) <$> fieldMap.*2);
     confidenceIndicator :=
       {| banner_display := "none";
          banner_className := "alert";
          innerHTML := "" |};
     errorSection_display := "none";
     errorSection_textContent := "";
     submitBtn :=
       Some {| disabled := false;
               label := original_label |};
     modalShown := false;
     fieldConfidences := ∅;
     hasLowConfidence := false;
     requests := [];
     location := None |}.

(** The level of an entry of the extraction result. *)
Definition field_level (f : ExtractedField) : Level :=
  confidence_level (conf_or_zero (conf f)).

(** The page has the control and the badge of every entry of [fieldMap]. *)
Definition page_has_fields (s : Page) : Prop :=
  ∀ e, e ∈ fieldMap →
    is_Some (inputs s !! e.2) ∧
    is_Some (confDivs s !! (e.2 +:+ "_conf")).

(** One turn of the loop of [buildConfidenceObject]. *)
Definition addEntry (s : Page) (acc : result (gmap string ConfEntry))
    (e : string * string) : result (gmap string ConfEntry) :=
  let '(apiField, formField) := e in
  result ← acc;
  match fieldConfidences s !! formField with
  | Some c =>
      v ← valueOf formField s;
      Ok (<[apiField := {| entry_value := v; entry_conf := c |}]> result)
  | None => Ok result
  end.

(** Only controls of the page have a recorded confidence. *)
Definition tracked (s : Page) : Prop :=
  ∀ id, is_Some (fieldConfidences s !! id) → is_Some (inputs s !! id).

(** The submission of page [s] reaches the network with payload [fd]. *)
Definition posts (net : fetch_outcome string) (s : Page) (fd : FormData) : Prop :=
  requests (submitForm net s).1 = requests s ++ [fd].

(** The message of the error that a failed POST raises. *)
Definition error_message (net : fetch_outcome string) : string :=
  match net with
  | FetchRejected message => message
  | FetchResponse _ _ => "Submission failed"
  end.

(** The eight scored field names. *)
Definition scored_names : list string :=
  ["name"; "apaar_id"; "institution_code"; "organization";
   "internship_title"; "start_date"; "end_date"; "hours"].

(** The event records a confidence for the scored field [api], whose control
    is [form]: an edit of the control, or an auto-fill whose result has the
    field. *)
Definition touches (api form : string) (e : event) : bool :=
  match e with
  | AutoFill fields => bool_decide (is_Some (fields !! api))
  | Edit id _ => bool_decide (id = form)
  | Submit _ | ConfirmSubmit _ => false
  end.

(** The extraction result of the example of the specification. *)
Definition sample_fields : gmap string ExtractedField :=
  {[ "name" := {| value := "Asha"; conf := Some (9 # 10) |};
     "hours" := {| value := "120"; conf := Some (2 # 5) |} ]}.

(** What the page holds for the control [form]: the control, its recorded
    confidence and its badge. *)
Definition view (s : Page) (form : string)
    : option Input * option Q * option ConfDiv :=
  (inputs s !! form, fieldConfidences s !! form, confDivs s !! (form +:+ "_conf")).

(** The extraction result has a value for the entry [e] of [fieldMap]. *)
Definition has_value (fields : gmap string ExtractedField)
    (e : string * string) : bool :=
  match fields !! e.1 with
  | Some f => negb (bool_decide (value f = ""))
  | None => false
  end.

(** The badge that the change listener writes. *)
Definition verified_badge : ConfDiv :=
  {| className := "field-confidence confidence-high";
     textContent := Plain "✓ Verified by student" |}.

(** The ten controls whose values lines 149-158 read. *)
Definition form_controls : list string :=
  ["name"; "apaarId"; "institutionCode"; "organization"; "internshipTitle";
   "startDate"; "endDate"; "hours"; "level"; "logs"].

(** The value that the payload carries for the control [id]. *)
Definition payload_value (fd : FormData) (id : string) : option string :=
  if bool_decide (id = "name") then Some (fd_name fd)
  else if bool_decide (id = "apaarId") then Some (apaar_id fd)
  else if bool_decide (id = "institutionCode") then Some (institution_code fd)
  else if bool_decide (id = "organization") then Some (organization fd)
  else if bool_decide (id = "internshipTitle") then Some (internship_title fd)
  else if bool_decide (id = "startDate") then Some (start_date fd)
  else if bool_decide (id = "endDate") then Some (end_date fd)
  else if bool_decide (id = "hours") then Some (hours fd)
  else if bool_decide (id = "level") then Some (level fd)
  else if bool_decide (id = "logs") then Some (logs fd)
  else None.


(** An upload page with two files chosen and an empty text area. *)
Definition chosen_page : Upload.Page :=
  {| Upload.files := ["certificate.pdf"; "annex.pdf"];
     Upload.text := " ";
     Upload.errorSection_display := "block";
     Upload.errorSection_textContent := "Please upload a file or paste certificate text";
     Upload.progressSection_display := "none";
     Upload.progressBar_width := "0%";
     Upload.progressBar_textContent := "";
     Upload.progressText_textContent := "";
     Upload.extractBtn_disabled := false;
     Upload.requests := [];
     Upload.location := None |}.

(** The event is a submission: the form's submit event or the click that
    confirms it. *)
Definition is_submission (e : event) : bool :=
  match e with
  | Submit _ | ConfirmSubmit _ => true
  | AutoFill _ | Edit _ _ => false
  end.

(** * Properties of upload.js *)

Section UploadProperties.
Import Upload.

Lemma app_singleton_neq {A} (l : list A) (x : A) : l ++ [x] ≠ l.
Proof.
  intros H. apply (f_equal length) in H. rewrite length_app in H. simpl in H. lia.
Qed.

(** The validation of lines 13-24 decides between three outcomes. *)
Lemma click_cases (net : fetch_outcome string) (p : Page) :
  (hasFile p = false ∧ hasText p = false ∧
     click net p = showError "Please upload a file or paste certificate text" p)
  ∨ (hasFile p = true ∧ hasText p = true ∧
     click net p = showError "Please use either file upload or text paste, not both" p)
  ∨ (hasFile p ≠ hasText p ∧
     requests (click net p) = requests p ++ [request p]).
Proof.
  unfold click.
  destruct (hasFile p), (hasText p); simpl; auto.
  - right; right. split; [done|].
    destruct net as [m|[] [u|m]]; reflexivity.
  - right; right. split; [done|].
    destruct net as [m|[] [u|m]]; reflexivity.
Qed.

End UploadProperties.

(** C5. Pressing the button with both a file and text, or with neither,
    shows a validation message and issues no request (nor leaves the page);
    a request is issued exactly when one of the two is present, and then it
    is the single request for that input.  A file is present when one is
    chosen, text when the trimmed content of the text area is not empty. *)
Theorem C5_upload_validation (net : fetch_outcome string) (p : Upload.Page) :
  let q := Upload.click net p in
  (Upload.hasFile p = Upload.hasText p ∧
     Upload.requests q = Upload.requests p ∧
     Upload.location q = Upload.location p ∧
     Upload.errorSection_display q = "block" ∧
     Upload.errorSection_textContent q =
       (if Upload.hasFile p
        then "Please use either file upload or text paste, not both"
        else "Please upload a file or paste certificate text"))
  ∨ (Upload.hasFile p ≠ Upload.hasText p ∧
     Upload.requests q = Upload.requests p ++ [Upload.request p] ∧
     Upload.requests q ≠ Upload.requests p).
Proof.
  intros q. subst q.
  destruct (click_cases net p) as [(Hf & Ht & ->)|[(Hf & Ht & ->)|(Hne & Hreq)]].
  - left. rewrite Hf, Ht. done.
  - left. rewrite Hf, Ht. done.
  - right. rewrite Hreq. split_and!; [done..|]. apply app_singleton_neq.
Qed.

(** C9. When the upload request fails (the promise rejects, or the status is
    not a success), the error region shows "Extraction failed: " followed by
    the error's message, the progress section is hidden, the button is
    enabled again, the page stays where it is, and the one request of this
    click is the only one issued. *)
Theorem C9_upload_failure (net : fetch_outcome string) (p : Upload.Page) :
  Upload.hasFile p ≠ Upload.hasText p →
  request_failed net →
  let q := Upload.click net p in
  Upload.errorSection_display q = "block" ∧
  Upload.errorSection_textContent q = failure_text net ∧
  String.prefix "Extraction failed:" (Upload.errorSection_textContent q) = true ∧
  Upload.progressSection_display q = "none" ∧
  Upload.extractBtn_disabled q = false ∧
  Upload.location q = Upload.location p ∧
  Upload.requests q = Upload.requests p ++ [Upload.request p].
Proof.
  intros Hne Hfail q. subst q. unfold Upload.click.
  destruct (Upload.hasFile p), (Upload.hasText p); try done; simpl.
  - destruct net as [m|ok j]; simpl in *; [|subst ok]; done.
  - destruct net as [m|ok j]; simpl in *; [|subst ok]; done.
Qed.

Lemma C9_upload_failure_witness :
  Upload.errorSection_textContent
    (Upload.click (FetchResponse false (JsonRejected "Unexpected token")) pasted_page)
  = "Extraction failed: Upload failed" ∧
  Upload.extractBtn_disabled
    (Upload.click (FetchResponse false (JsonRejected "Unexpected token")) pasted_page)
  = false.
Proof.
  pose proof (C9_upload_failure
    (FetchResponse false (JsonRejected "Unexpected token")) pasted_page) as H.
  simpl in H. destruct H as (_ & Ht & _ & _ & Hb & _).
  - vm_compute. discriminate.
  - reflexivity.
  - split; [exact Ht | exact Hb].
Defined.

(** * Properties of student_form.js *)

Section Levels.

Lemma Qlt_bool_iff (x y : Q) : Qlt_bool x y = true ↔ (x < y)%Q.
Proof. unfold Qlt_bool, Qlt. apply Z.ltb_lt. Qed.

Lemma Qle_bool_false (x y : Q) : Qle_bool x y = false ↔ (y < x)%Q.
Proof.
  rewrite <- not_true_iff_false, Qle_bool_iff. split.
  - apply Qnot_le_lt.
  - intros H1 H2. exact (Qlt_not_le _ _ H1 H2).
Qed.

Lemma Qlt_bool_false (x y : Q) : Qlt_bool x y = false ↔ (y <= x)%Q.
Proof.
  rewrite <- not_true_iff_false, Qlt_bool_iff. split.
  - apply Qnot_lt_le.
  - intros H1 H2. exact (Qlt_not_le _ _ H2 H1).
Qed.

(** Decide the three comparisons of the cascade and read each as an
    inequality. *)
Ltac cascade c :=
  unfold confidence_level;
  destruct (Qle_bool (3 # 4) c) eqn:?E1;
    [apply Qle_bool_iff in E1 | apply Qle_bool_false in E1];
  (destruct (Qle_bool (1 # 2) c) eqn:?E2;
    [apply Qle_bool_iff in E2 | apply Qle_bool_false in E2]);
  (destruct (Qlt_bool 0 c) eqn:?E3;
    [apply Qlt_bool_iff in E3 | apply Qlt_bool_false in E3]);
  split; intros; try discriminate; try reflexivity; try split; try lra.

Lemma conf_or_zero_Some (q : Q) : (conf_or_zero (Some q) == q)%Q.
Proof.
  simpl. destruct (Qeq_bool q 0) eqn:E; [|reflexivity].
  apply Qeq_bool_iff in E. symmetry. exact E.
Qed.

Lemma confidence_level_High (c : Q) :
  confidence_level c = High ↔ (3 # 4 <= c)%Q.
Proof. cascade c. Qed.

Lemma confidence_level_Medium (c : Q) :
  confidence_level c = Medium ↔ (1 # 2 <= c)%Q ∧ (c < 3 # 4)%Q.
Proof. cascade c. Qed.

Lemma confidence_level_Low (c : Q) :
  confidence_level c = Low ↔ (0 < c)%Q ∧ (c < 1 # 2)%Q.
Proof. cascade c. Qed.

Lemma confidence_level_Unset (c : Q) :
  confidence_level c = Unset ↔ (c <= 0)%Q.
Proof. cascade c. Qed.

End Levels.

(** C3. The badge of a field follows the score [c] that line 53 reads (an
    absent score counting as 0): the high badge is written exactly when
    [c >= 0.75], the medium one exactly when [0.5 <= c < 0.75], the low one
    exactly when [0 < c < 0.5]; when [c <= 0], and only then, the level is
    unset: the badge element is left as it was and nothing asks for
    verification. *)
Theorem C3_confidence_levels (c : option Q) :
  let conf := conf_or_zero c in
  (confidence_level conf = High ↔ (3 # 4 <= conf)%Q) ∧
  (confidence_level conf = Medium ↔
     (1 # 2 <= conf)%Q ∧ (conf < 3 # 4)%Q) ∧
  (confidence_level conf = Low ↔
     (0 < conf)%Q ∧ (conf < 1 # 2)%Q) ∧
  (confidence_level conf = Unset ↔ (conf <= 0)%Q) ∧
  (conf == match c with Some q => q | None => 0 end)%Q ∧
  (∀ d : ConfDiv,
     className (showConfidence conf d) =
       match confidence_level conf with
       | High => "field-confidence confidence-high"
       | Medium => "field-confidence confidence-medium"
       | Low => "field-confidence confidence-low"
       | Unset => className d
       end) ∧
  (∀ d : ConfDiv,
     confidence_level conf = Unset →
     showConfidence conf d = d ∧
     needs_verification conf = false).
Proof.
  intros conf. split_and!.
  - apply confidence_level_High.
  - apply confidence_level_Medium.
  - apply confidence_level_Low.
  - apply confidence_level_Unset.
  - destruct c as [q|]; [apply conf_or_zero_Some | reflexivity].
  - intros d. unfold showConfidence.
    destruct (confidence_level conf); reflexivity.
  - intros d H. unfold showConfidence, needs_verification.
    rewrite H. done.
Qed.

Section AutoFill.

Context (fields : gmap string ExtractedField).

(** Token lists. *)
Lemma classList_add_elem (c : string) (l : list string) : c ∈ classList_add c l.
Proof.
  unfold classList_add. case_bool_decide; [done|]. apply elem_of_app. right. apply list_elem_of_singleton. done.
Qed.

Lemma classList_add_mono (c d : string) (l : list string) :
  c ∈ l → c ∈ classList_add d l.
Proof.
  unfold classList_add. intros H. case_bool_decide; [done|]. apply elem_of_app. by left.
Qed.

Lemma classList_add_id (c : string) (l : list string) :
  c ∈ l → classList_add c l = l.
Proof. unfold classList_add. intros H. by rewrite bool_decide_eq_true_2. Qed.

Lemma showConfidence_idem (c : Q) (d : ConfDiv) :
  showConfidence c (showConfidence c d) = showConfidence c d.
Proof. unfold showConfidence. by destruct (confidence_level c). Qed.

Lemma list_ascii_of_string_app (a b : string) :
  String.list_ascii_of_string (a +:+ b) = String.list_ascii_of_string a ++ String.list_ascii_of_string b.
Proof. induction a as [|x a IH]; simpl; [done|]. by rewrite IH. Qed.

(** Distinct controls have distinct badges. *)
Lemma conf_id_inj (a b : string) : a +:+ "_conf" = b +:+ "_conf" → a = b.
Proof.
  intros H. apply (f_equal String.list_ascii_of_string) in H.
  rewrite !list_ascii_of_string_app in H. apply app_inv_tail in H.
  rewrite <- (String.string_of_list_ascii_of_string a), <- (String.string_of_list_ascii_of_string b).
  by rewrite H.
Qed.

(** *** One turn of the loop, in closed form *)

Lemma fillField_turn st e : fillField fields st e = turn fields st e.
Proof.
  destruct st as [s a], e as [api form]. unfold fillField, turn, plan. simpl.
  destruct (fields !! api) as [f|]; [|done].
  destruct (inputs s !! form) as [i|]; [|done].
  case_bool_decide; [done|].
  destruct (confDivs s !! (form +:+ "_conf")) as [d|]; simpl.
  - unfold write. destruct (needs_verification (conf_or_zero (conf f))); simpl.
    + rewrite insert_insert_eq, orb_true_r, andb_false_r. done.
    + rewrite orb_false_r, andb_true_r. destruct s; done.
  - unfold write. simpl. rewrite orb_false_r, andb_true_r. destruct s; done.
Qed.

Lemma plan_lowers s e :
  lowers fields s e = from_option fill_low false (plan fields s e).
Proof.
  unfold lowers, plan. destruct (fields !! e.1) as [f|]; [|done].
  destruct (inputs s !! e.2) as [i|].
  - rewrite (bool_decide_eq_true_2 (is_Some (Some i))) by eauto.
    case_bool_decide; [done|]. simpl.
    destruct (confDivs s !! (e.2 +:+ "_conf")) as [d|]; simpl.
    + done.
    + done.
  - rewrite (bool_decide_eq_false_2 (is_Some None)) by (by intros [? ?]).
    by rewrite andb_false_r.
Qed.

(** A turn removes no element and adds none. *)
Lemma plan_inputs_present s e w k :
  plan fields s e = Some w →
  is_Some (<[e.2 := fill_input w]> (inputs s) !! k) ↔ is_Some (inputs s !! k).
Proof.
  intros Hp. destruct (decide (e.2 = k)) as [<-|Hne].
  - rewrite lookup_insert_eq. unfold plan in Hp.
    destruct (fields !! e.1), (inputs s !! e.2); naive_solver.
  - by rewrite lookup_insert_ne.
Qed.

Lemma plan_confDivs_present s e w k :
  plan fields s e = Some w →
  is_Some (match fill_div w with
           | Some d => <[e.2 +:+ "_conf" := d]> (confDivs s)
           | None => confDivs s
           end !! k) ↔ is_Some (confDivs s !! k).
Proof.
  intros Hp. unfold plan in Hp.
  destruct (fields !! e.1), (inputs s !! e.2); try done.
  case_bool_decide; [done|].
  destruct (confDivs s !! (e.2 +:+ "_conf")) as [d|] eqn:Hd;
    injection Hp as <-; simpl; [|done].
  destruct (decide (e.2 +:+ "_conf" = k)) as [<-|Hne].
  - rewrite lookup_insert_eq, Hd. split; eauto.
  - by rewrite lookup_insert_ne.
Qed.

Lemma lowers_turn st e e' :
  lowers fields (turn fields st e).1 e' = lowers fields st.1 e'.
Proof.
  unfold turn. destruct (plan fields st.1 e) as [w|] eqn:Hp; [|done].
  unfold lowers. destruct (fields !! e'.1) as [f|]; [|done]. simpl.
  do 2 f_equal; [f_equal|]; apply bool_decide_ext.
  - exact (plan_inputs_present st.1 e w _ Hp).
  - exact (plan_confDivs_present st.1 e w _ Hp).
Qed.

Lemma turn_idem st e : turn fields (turn fields st e) e = turn fields st e.
Proof.
  unfold turn at 2. destruct (plan fields st.1 e) as [w|] eqn:Hp;
    [|by unfold turn; rewrite Hp].
  unfold turn, plan in *. simpl.
  destruct (fields !! e.1) as [f|]; [|done].
  rewrite lookup_insert_eq.
  destruct (inputs st.1 !! e.2) as [i|]; [|done].
  case_bool_decide; [done|].
  destruct (confDivs st.1 !! (e.2 +:+ "_conf")) as [d|] eqn:Hd;
    injection Hp as <-; simpl.
  - rewrite lookup_insert_eq. unfold write. simpl.
    rewrite !insert_insert_eq, showConfidence_idem.
    destruct (needs_verification (conf_or_zero (conf f))); simpl.
    + rewrite (classList_add_id "animate-fill")
        by (apply classList_add_mono, classList_add_elem).
      rewrite (classList_add_id "low-confidence-field")
        by apply classList_add_elem.
      by rewrite !orb_true_r, !andb_false_r.
    + rewrite (classList_add_id "animate-fill") by apply classList_add_elem.
      by rewrite !orb_false_r, !andb_true_r.
  - rewrite Hd. unfold write. simpl. rewrite !insert_insert_eq.
    rewrite (classList_add_id "animate-fill") by apply classList_add_elem.
    by rewrite !orb_false_r, !andb_true_r.
Qed.

Lemma plan_write_ne st (e e' : string * string) w :
  e.2 ≠ e'.2 → plan fields (write e.2 w st).1 e' = plan fields st.1 e'.
Proof.
  intros Hne. unfold plan. simpl. rewrite lookup_insert_ne by done.
  destruct (fill_div w) as [d|]; [|done].
  rewrite lookup_insert_ne; [done|]. intros H. by apply conf_id_inj in H.
Qed.

Lemma write_comm st form form' w w' :
  form ≠ form' →
  write form' w' (write form w st) = write form w (write form' w' st).
Proof.
  intros Hne. unfold write. simpl.
  assert (form +:+ "_conf" ≠ form' +:+ "_conf") as Hne'
    by (intros H; by apply conf_id_inj in H).
  f_equal; [f_equal|].
  - by apply insert_insert_ne.
  - destruct (fill_div w), (fill_div w'); try done. by apply insert_insert_ne.
  - by apply insert_insert_ne.
  - by rewrite <- !orb_assoc, (orb_comm (fill_low w)).
  - by rewrite <- !andb_assoc, (andb_comm (negb (fill_low w))).
Qed.

Lemma turn_comm st (e e' : string * string) :
  e.2 ≠ e'.2 →
  turn fields (turn fields st e) e' = turn fields (turn fields st e') e.
Proof.
  intros Hne. unfold turn at 2 4.
  destruct (plan fields st.1 e) as [w|] eqn:Hp,
           (plan fields st.1 e') as [w'|] eqn:Hp'; unfold turn.
  - rewrite !plan_write_ne, Hp, Hp' by done. by apply write_comm.
  - rewrite plan_write_ne, Hp, Hp' by done. done.
  - rewrite plan_write_ne, Hp, Hp' by done. done.
  - by rewrite Hp, Hp'.
Qed.

(** *** The whole loop *)

Lemma foldl_comm_step {A B} (f : A → B → A) (l : list B) (x : B) :
  (∀ y a, y ∈ l → f (f a x) y = f (f a y) x) →
  ∀ a, foldl f (f a x) l = f (foldl f a l) x.
Proof.
  induction l as [|y l IH]; intros Hc a; simpl; [done|].
  rewrite Hc by left. apply IH. intros z b Hz. apply Hc. by right.
Qed.

Lemma foldl_idem {A B} (f : A → B → A) (l : list B) :
  (∀ x a, x ∈ l → f (f a x) x = f a x) →
  (∀ x y a, x ∈ l → y ∈ l → f (f a x) y = f (f a y) x) →
  ∀ a, foldl f (foldl f a l) l = foldl f a l.
Proof.
  induction l as [|x l IH]; intros Hi Hc a; simpl; [done|].
  rewrite <- (foldl_comm_step f l x)
    by (intros y b Hy; apply Hc; [left | by right]).
  rewrite Hi by left.
  apply IH.
  - intros y b Hy. apply Hi. by right.
  - intros y z b Hy Hz. apply Hc; by right.
Qed.

Lemma fieldMap_distinct (x y : string * string) :
  x ∈ fieldMap → y ∈ fieldMap → x = y ∨ x.2 ≠ y.2.
Proof.
  assert (Forall (λ x : string * string,
            Forall (λ y : string * string, x = y ∨ x.2 ≠ y.2) fieldMap) fieldMap)
    as H by (apply (bool_decide_unpack _); vm_compute; exact I).
  intros Hx Hy. rewrite Forall_forall in H. specialize (H x Hx).
  rewrite Forall_forall in H. by apply H.
Qed.

Lemma foldl_fillField l st :
  foldl (fillField fields) st l = foldl (turn fields) st l.
Proof.
  revert st. induction l as [|e l IH]; intros st; simpl; [done|].
  by rewrite fillField_turn, IH.
Qed.

Lemma loop_idem st : loop fields (loop fields st) = loop fields st.
Proof.
  unfold loop. apply foldl_idem.
  - intros x a _. apply turn_idem.
  - intros x y a Hx Hy. destruct (fieldMap_distinct x y Hx Hy) as [->|Hne]; [done|].
    by apply turn_comm.
Qed.

Lemma existsb_ext' {A} (f g : A → bool) (l : list A) :
  (∀ x, f x = g x) → existsb f l = existsb g l.
Proof. intros H. induction l as [|x l IH]; simpl; [done|]. by rewrite H, IH. Qed.

(** The flags do not steer the loop: they only collect what [lowers] says. *)
Lemma foldl_turn_flags l s h a a' :
  foldl (turn fields) (with_hasLowConfidence h s, a') l =
  (with_hasLowConfidence (h || existsb (lowers fields s) l)
     (foldl (turn fields) (s, a) l).1,
   a' && negb (existsb (lowers fields s) l)).
Proof.
  revert s h a a'. induction l as [|e l IH]; intros s h a a'; simpl.
  - by rewrite orb_false_r, andb_true_r.
  - rewrite plan_lowers. unfold turn at 2 4.
    change (plan fields (with_hasLowConfidence h s, a').1 e)
      with (plan fields s e).
    change (plan fields (s, a).1 e) with (plan fields s e).
    destruct (plan fields s e) as [w|] eqn:Hp; simpl.
    + change (write e.2 w (with_hasLowConfidence h s, a'))
        with (with_hasLowConfidence (h || fill_low w) (write e.2 w (s, a)).1,
              a' && negb (fill_low w)).
      rewrite (IH _ _ (write e.2 w (s, a)).2).
      rewrite <- surjective_pairing.
      assert (existsb (lowers fields (write e.2 w (s, a)).1) l
              = existsb (lowers fields s) l) as ->.
      { apply existsb_ext'. intros x.
        pose proof (lowers_turn (s, a) e x) as H.
        unfold turn in H. simpl in H. by rewrite Hp in H. }
      by rewrite negb_orb, orb_assoc, andb_assoc.
    + apply IH.
Qed.

Lemma foldl_turn_banner l b s a :
  foldl (turn fields) (with_confidenceIndicator b s, a) l =
  (with_confidenceIndicator b (foldl (turn fields) (s, a) l).1,
   (foldl (turn fields) (s, a) l).2).
Proof.
  revert s a. induction l as [|e l IH]; intros s a; simpl; [done|].
  unfold turn at 2 4 6.
  change (plan fields (with_confidenceIndicator b s, a).1 e)
    with (plan fields s e).
  change (plan fields (s, a).1 e) with (plan fields s e).
  destruct (plan fields s e) as [w|]; [|apply IH].
  change (write e.2 w (with_confidenceIndicator b s, a))
    with (with_confidenceIndicator b (write e.2 w (s, a)).1,
          (write e.2 w (s, a)).2).
  rewrite IH. by rewrite <- surjective_pairing.
Qed.

Lemma lowers_loop st e :
  lowers fields (loop fields st).1 e = lowers fields st.1 e.
Proof.
  unfold loop. generalize fieldMap. intros l. revert st.
  induction l as [|x l IH]; intros st; simpl; [done|].
  by rewrite IH, lowers_turn.
Qed.

(** [autoFillForm] in closed form: the loop run with the flag down, the flag
    set to [attention], and the banner chosen by it when [fields] has keys. *)
Lemma autoFillForm_eq s :
  autoFillForm fields s =
  let s' := with_hasLowConfidence (attention fields s)
              (loop fields (with_hasLowConfidence false s, true)).1 in
  if bool_decide (0 < size fields)
  then with_confidenceIndicator (banner_of (attention fields s)) s'
  else s'.
Proof.
  unfold autoFillForm, loop, attention, banner_of.
  rewrite foldl_fillField.
  rewrite (foldl_turn_flags fieldMap s false true true).
  generalize (existsb (lowers fields s) fieldMap) as low,
             (foldl (turn fields) (s, true) fieldMap) as st.
  intros [] st; reflexivity.
Qed.

Lemma attention_loop st :
  attention fields (loop fields st).1 = attention fields st.1.
Proof. apply existsb_ext'. intros e. apply lowers_loop. Qed.

(** Running the loop again on its own result changes the flag at most. *)
Lemma loop_again s h :
  let x := (loop fields (with_hasLowConfidence false s, true)).1 in
  (loop fields (with_hasLowConfidence h x, true)).1 =
  with_hasLowConfidence (h || attention fields s) x.
Proof.
  intros x. unfold loop at 1.
  rewrite (foldl_turn_flags fieldMap x h
             (loop fields (with_hasLowConfidence false s, true)).2 true).
  cbn [fst]. f_equal.
  - f_equal. subst x.
    exact (attention_loop (with_hasLowConfidence false s, true)).
  - subst x. rewrite <- surjective_pairing. fold (loop fields
      (loop fields (with_hasLowConfidence false s, true))).
    by rewrite loop_idem.
Qed.

End AutoFill.

(** C7. Filling the form twice from the same extraction result leaves the
    page exactly as filling it once: the values and classes of the controls,
    the recorded confidences, the badges, the flag and the banner. *)
Theorem C7_autoFillForm_idempotent
    (fields : gmap string ExtractedField) (s : Page) :
  autoFillForm fields (autoFillForm fields s)
  = autoFillForm fields s.
Proof.
  rewrite (autoFillForm_eq fields (autoFillForm fields s)).
  rewrite (autoFillForm_eq fields s). cbn zeta.
  set (x := (loop fields (with_hasLowConfidence false s, true)).1).
  set (low := attention fields s).
  assert (∀ b : bool, attention fields
            (if b then with_confidenceIndicator (banner_of low)
                         (with_hasLowConfidence low x)
             else with_hasLowConfidence low x) = low) as Hlow.
  { intros b. transitivity (attention fields x); [by destruct b|].
    exact (attention_loop fields (with_hasLowConfidence false s, true)). }
  rewrite Hlow.
  pose proof (loop_again fields s false) as Hx. cbn zeta in Hx. fold x low in Hx.
  destruct (bool_decide (0 < size fields)).
  - change (with_hasLowConfidence false
              (with_confidenceIndicator (banner_of low)
                 (with_hasLowConfidence low x)))
      with (with_confidenceIndicator (banner_of low)
              (with_hasLowConfidence false x)).
    unfold loop at 1. rewrite foldl_turn_banner. cbn [fst].
    fold (loop fields (with_hasLowConfidence false x, true)).
    rewrite Hx. reflexivity.
  - change (with_hasLowConfidence false
              (with_hasLowConfidence low x))
      with (with_hasLowConfidence false x).
    rewrite Hx. reflexivity.
Qed.

Section Banner.

Lemma foldl_turn_confidenceIndicator fields l st :
  confidenceIndicator (foldl (turn fields) st l).1 = confidenceIndicator st.1.
Proof.
  revert st. induction l as [|e l IH]; intros st; simpl; [done|].
  rewrite IH. unfold turn. by destruct (plan fields st.1 e).
Qed.

Lemma size_pos_nonempty (fields : gmap string ExtractedField) :
  bool_decide (0 < size fields) = true ↔ fields ≠ ∅.
Proof.
  rewrite bool_decide_eq_true, <- map_size_empty_iff. lia.
Qed.

(** The banner after an auto-fill. *)
Lemma autoFillForm_banner fields s :
  confidenceIndicator (autoFillForm fields s) =
  if bool_decide (0 < size fields) then banner_of (attention fields s)
  else confidenceIndicator s.
Proof.
  rewrite autoFillForm_eq. cbn zeta. destruct (bool_decide (0 < size fields)); [done|].
  cbn [confidenceIndicator with_hasLowConfidence]. unfold loop.
  by rewrite foldl_turn_confidenceIndicator.
Qed.

Lemma needs_verification_level (c : Q) :
  needs_verification c = true ↔
  confidence_level c = Medium ∨ confidence_level c = Low.
Proof.
  unfold needs_verification.
  destruct (confidence_level c); split; intros H; try done; auto;
    by destruct H.
Qed.

Lemma attention_true fields s :
  attention fields s = true ↔
  ∃ api form f, (api, form) ∈ fieldMap ∧ fields !! api = Some f ∧ value f ≠ "" ∧
    is_Some (inputs s !! form) ∧ is_Some (confDivs s !! (form +:+ "_conf")) ∧
    needs_verification (conf_or_zero (conf f)) = true.
Proof.
  unfold attention. rewrite existsb_exists. split.
  - intros ([api form] & Hin & Hl). apply list_elem_of_In in Hin.
    unfold lowers in Hl. simpl in Hl.
    destruct (fields !! api) as [f|] eqn:Hf; [|done].
    apply andb_prop in Hl as [Hl Hn]. apply andb_prop in Hl as [Hl Hd].
    apply andb_prop in Hl as [Hv Hi].
    apply negb_true_iff, bool_decide_eq_false in Hv.
    apply bool_decide_eq_true in Hi, Hd. by exists api, form, f.
  - intros (api & form & f & Hin & Hf & Hv & Hi & Hd & Hn).
    exists (api, form). split; [by apply list_elem_of_In|].
    unfold lowers. simpl. rewrite Hf, Hn.
    by rewrite bool_decide_eq_false_2, !bool_decide_eq_true_2.
Qed.

End Banner.

Lemma review_page_has_fields : page_has_fields review_page.
Proof.
  assert (Forall (λ e : string * string,
            is_Some (inputs review_page !! e.2) ∧
            is_Some (confDivs review_page !! (e.2 +:+ "_conf")))
          fieldMap) as H
    by (apply (bool_decide_unpack _); vm_compute; exact I).
  intros e He. rewrite Forall_forall in H. by apply H.
Qed.

(** C6, as stated, fails. The extraction result has one entry, [hours],
    of low confidence (0.4) and with an empty value. The loop skips the
    entry for want of a value, so nothing is filled in; yet, the result
    having a key, a banner is displayed, and it is the affirmative one, not
    the attention-needed one. *)
Lemma C6_counterexample :
  let f := {| value := ""; conf := Some (2 # 5) |} in
  let fields : gmap string ExtractedField := {[ "hours" := f ]} in
  let s := autoFillForm fields review_page in
  fields !! "hours" = Some f ∧
  field_level f = Low ∧
  inputs s = inputs review_page ∧
  fieldConfidences s = ∅ ∧
  banner_display (confidenceIndicator review_page) = "none" ∧
  confidenceIndicator s = all_high_banner ∧
  banner_display all_high_banner = "block" ∧
  all_high_banner ≠ needs_attention_banner.
Proof. cbn zeta. split_and!; try done; by vm_compute. Qed.

(** C6, amended. On a page that has the controls and badges of [fieldMap]:
    with an empty extraction result the banner is left as it is; otherwise
    exactly one of the two summaries is shown, the attention one when some
    recognized field with a non-empty value is medium or low, the
    affirmative one when no such field is, in particular when every field
    of the result is high. *)
Theorem C6_banner (fields : gmap string ExtractedField)
    (s : Page) :
  page_has_fields s →
  let banner :=
    confidenceIndicator (autoFillForm fields s) in
  (fields = ∅ → banner = confidenceIndicator s) ∧
  (fields ≠ ∅ → banner = all_high_banner ∨ banner = needs_attention_banner) ∧
  (∀ api form f,
     (api, form) ∈ fieldMap → fields !! api = Some f →
     value f ≠ "" →
     field_level f = Medium ∨ field_level f = Low →
     banner = needs_attention_banner) ∧
  (fields ≠ ∅ →
   (∀ api form f,
      (api, form) ∈ fieldMap → fields !! api = Some f →
      value f ≠ "" →
      field_level f ≠ Medium ∧ field_level f ≠ Low) →
   banner = all_high_banner) ∧
  (fields ≠ ∅ →
   (∀ api f, fields !! api = Some f → field_level f = High) →
   banner = all_high_banner).
Proof.
  intros Hpage banner. subst banner. rewrite autoFillForm_banner.
  assert (∀ api form f,
            (api, form) ∈ fieldMap → fields !! api = Some f →
            value f ≠ "" →
            field_level f = Medium ∨ field_level f = Low →
            attention fields s = true) as Hatt.
  { intros api form f Hin Hf Hv Hl. apply attention_true.
    exists api, form, f. destruct (Hpage _ Hin) as [Hi Hd].
    split_and!; try done. by apply needs_verification_level. }
  assert (fields ≠ ∅ →
          (∀ api form f,
             (api, form) ∈ fieldMap → fields !! api = Some f →
             value f ≠ "" →
             field_level f ≠ Medium ∧ field_level f ≠ Low) →
          (if bool_decide (0 < size fields) then banner_of (attention fields s)
           else confidenceIndicator s) = all_high_banner) as Hhigh.
  { intros Hne Hall. rewrite (proj2 (size_pos_nonempty fields) Hne).
    destruct (attention fields s) eqn:Ha; [|done].
    apply attention_true in Ha as (api & form & f & Hin & Hf & Hv & _ & _ & Hn).
    apply needs_verification_level in Hn.
    destruct (Hall api form f Hin Hf Hv) as [H1 H2]. by destruct Hn. }
  split_and!.
  - intros ->. by rewrite bool_decide_eq_false_2 by (rewrite map_size_empty; lia).
  - intros Hne. rewrite (proj2 (size_pos_nonempty fields) Hne).
    destruct (attention fields s); [by right | by left].
  - intros api form f Hin Hf Hv Hl.
    rewrite (proj2 (size_pos_nonempty fields)) by (intros ->; done).
    by rewrite (Hatt api form f).
  - exact Hhigh.
  - intros Hne Hall. apply Hhigh; [done|].
    intros api form f _ Hf _. rewrite (Hall api f Hf). done.
Qed.

Lemma C6_banner_witness :
  confidenceIndicator
    (autoFillForm
       {[ "name" := {| value := "Asha";
                       conf := Some (23 # 25) |} ]} review_page)
  = all_high_banner.
Proof.
  refine (proj2 (proj2 (proj2 (proj2
    (C6_banner {[ "name" := {| value := "Asha";
                               conf := Some (23 # 25) |} ]}
       review_page review_page_has_fields)))) _ _).
  - intros H. apply (f_equal size) in H. vm_compute in H. discriminate.
  - intros api f Hf. apply lookup_singleton_Some in Hf as [_ <-]. reflexivity.
Defined.

Section Payload.

Context (s : Page).

Lemma buildConfidenceObject_fold :
  buildConfidenceObject s = foldl (addEntry s) (Ok ∅) fieldMap.
Proof. reflexivity. Qed.

Lemma foldl_addEntry_Throw l message :
  foldl (addEntry s) (Throw message) l = Throw message.
Proof. induction l as [|[api form] l IH]; simpl; [done|]. exact IH. Qed.

Lemma addEntry_Ok acc api form :
  addEntry s (Ok acc) (api, form) =
  match fieldConfidences s !! form with
  | Some c =>
      match valueOf form s with
      | Ok v => Ok (<[api := {| entry_value := v; entry_conf := c |}]> acc)
      | Throw message => Throw message
      end
  | None => Ok acc
  end.
Proof.
  unfold addEntry. simpl. destruct (fieldConfidences s !! form); [|done].
  by destruct (valueOf form s).
Qed.

(** Every entry built comes from a recorded confidence. *)
Lemma foldl_addEntry_sound l acc m api entry :
  foldl (addEntry s) (Ok acc) l = Ok m →
  m !! api = Some entry →
  acc !! api = Some entry ∨
  ∃ form, (api, form) ∈ l ∧
    fieldConfidences s !! form = Some (entry_conf entry) ∧
    valueOf form s = Ok (entry_value entry).
Proof.
  revert acc. induction l as [|[api' form'] l IH]; intros acc Hm Hl;
    cbn [foldl] in Hm.
  - injection Hm as <-. by left.
  - rewrite addEntry_Ok in Hm.
    destruct (fieldConfidences s !! form') as [c|] eqn:Hc.
    + destruct (valueOf form' s) as [v|msg] eqn:Hv;
        [|by rewrite foldl_addEntry_Throw in Hm].
      destruct (IH _ Hm Hl) as [Hacc|(form & Hin & H1 & H2)].
      * destruct (decide (api' = api)) as [->|Hne].
        -- rewrite lookup_insert_eq in Hacc. injection Hacc as <-.
           right. exists form'. split; [left|done].
        -- rewrite lookup_insert_ne in Hacc by done. by left.
      * right. exists form. split; [by right|done].
    + destruct (IH _ Hm Hl) as [Hacc|(form & Hin & H1 & H2)]; [by left|].
      right. exists form. split; [by right|done].
Qed.

(** Turns for other API names leave an entry alone. *)
Lemma foldl_addEntry_frame l acc m api :
  api ∉ l.*1 →
  foldl (addEntry s) (Ok acc) l = Ok m →
  m !! api = acc !! api.
Proof.
  revert acc. induction l as [|[api' form'] l IH]; intros acc Hnotin Hm;
    cbn [foldl] in Hm.
  - by injection Hm as <-.
  - simpl in Hnotin. apply not_elem_of_cons in Hnotin as [Hne Hnotin].
    rewrite addEntry_Ok in Hm.
    destruct (fieldConfidences s !! form') as [c|].
    + destruct (valueOf form' s) as [v|msg];
        [|by rewrite foldl_addEntry_Throw in Hm].
      rewrite (IH _ Hnotin Hm). by rewrite lookup_insert_ne.
    + by apply IH.
Qed.

(** A recorded confidence of a scored field is built into the object. *)
Lemma foldl_addEntry_complete l acc m api form c v :
  NoDup l.*1 →
  foldl (addEntry s) (Ok acc) l = Ok m →
  (api, form) ∈ l →
  fieldConfidences s !! form = Some c →
  valueOf form s = Ok v →
  m !! api = Some {| entry_value := v; entry_conf := c |}.
Proof.
  revert acc. induction l as [|[api' form'] l IH];
    intros acc Hnd Hm Hin Hc Hv; [by apply elem_of_nil in Hin|].
  simpl in Hnd. apply NoDup_cons in Hnd as [Hnotin Hnd].
  cbn [foldl] in Hm. rewrite addEntry_Ok in Hm.
  apply elem_of_cons in Hin as [Heq|Hin].
  - injection Heq as <- <-. rewrite Hc, Hv in Hm.
    rewrite (foldl_addEntry_frame l _ m api Hnotin Hm).
    apply lookup_insert_eq.
  - destruct (fieldConfidences s !! form') as [c'|].
    + destruct (valueOf form' s) as [v'|msg];
        [|by rewrite foldl_addEntry_Throw in Hm].
      by eapply IH.
    + by eapply IH.
Qed.

(** The object is built whenever every recorded scored field has its
    control on the page. *)
Lemma foldl_addEntry_defined l acc :
  (∀ e, e ∈ l → is_Some (fieldConfidences s !! e.2) → is_Some (inputs s !! e.2)) →
  ∃ m, foldl (addEntry s) (Ok acc) l = Ok m.
Proof.
  revert acc. induction l as [|[api form] l IH]; intros acc H; cbn [foldl].
  - by exists acc.
  - rewrite addEntry_Ok.
    assert (∀ e, e ∈ l → is_Some (fieldConfidences s !! e.2) →
                 is_Some (inputs s !! e.2)) as H'
      by (intros e He; apply H; by right).
    destruct (fieldConfidences s !! form) as [c|] eqn:Hc; [|by apply IH].
    destruct (H (api, form)) as [i Hi]; [left | simpl; eauto |].
    unfold valueOf. simpl in Hi. rewrite Hi. by apply IH.
Qed.

Lemma fieldMap_NoDup_api : NoDup fieldMap.*1.
Proof. apply (bool_decide_unpack _). vm_compute. exact I. Qed.

End Payload.

Section Submission.

Lemma collectFormData_fields s fd :
  collectFormData s = Ok fd → buildConfidenceObject s = Ok (field_confidences fd).
Proof.
  unfold collectFormData.
  destruct (valueOf "name" s); [|done]. destruct (valueOf "apaarId" s); [|done].
  destruct (valueOf "institutionCode" s); [|done].
  destruct (valueOf "organization" s); [|done].
  destruct (valueOf "internshipTitle" s); [|done].
  destruct (valueOf "startDate" s); [|done]. destruct (valueOf "endDate" s); [|done].
  destruct (valueOf "hours" s); [|done]. destruct (valueOf "level" s); [|done].
  destruct (valueOf "logs" s); [|done]. simpl.
  destruct (buildConfidenceObject s); [|done]. simpl. by intros [= <-].
Qed.

(** [submitForm] by cases: no button, no payload, or the POST and its
    answer. *)
Lemma submitForm_eq net s :
  submitForm net s =
  match submitBtn s with
  | None => catch "Cannot set properties of null (setting 'disabled')" s
  | Some _ =>
      let s1 := with_submitBtn {| disabled := true; label := "Processing..." |} s in
      match collectFormData s with
      | Throw message => catch message s1
      | Ok formData =>
          let s2 := with_requests (requests s ++ [formData]) s1 in
          match net with
          | FetchRejected message => catch message s2
          | FetchResponse false _ => catch "Submission failed" s2
          | FetchResponse true (JsonRejected message) => catch message s2
          | FetchResponse true (JsonData redirect_url) =>
              (with_location redirect_url s2, Fulfilled)
          end
      end
  end.
Proof. reflexivity. Qed.

(** A submission that reaches the network posts the collected payload. *)
Lemma submitForm_posted net s fd :
  requests (submitForm net s).1 = requests s ++ [fd] →
  is_Some (submitBtn s) ∧ collectFormData s = Ok fd.
Proof.
  rewrite submitForm_eq. unfold catch.
  destruct (submitBtn s) as [b|] eqn:Hb; simpl.
  - destruct (collectFormData s) as [fd'|msg]; simpl.
    + intros H. split; [done|]. f_equal.
      assert (requests s ++ [fd'] = requests s ++ [fd]) as H'
        by (by destruct net as [m|[] [u|m]]).
      apply app_inv_head in H'. by injection H'.
    + intros H. by apply symmetry, app_singleton_neq in H.
  - rewrite Hb. simpl. intros H. by apply symmetry, app_singleton_neq in H.
Qed.

Lemma submitForm_frame net s :
  let s' := (submitForm net s).1 in
  inputs s' = inputs s ∧ confDivs s' = confDivs s ∧
  fieldConfidences s' = fieldConfidences s ∧
  hasLowConfidence s' = hasLowConfidence s ∧
  modalShown s' = modalShown s ∧
  confidenceIndicator s' = confidenceIndicator s.
Proof.
  rewrite submitForm_eq. unfold catch.
  destruct (submitBtn s) as [b|] eqn:Hb; simpl; [|by rewrite Hb].
  destruct (collectFormData s) as [fd'|msg]; simpl; [|done].
  by destruct net as [m|[] [u|m]].
Qed.

End Submission.

Section Reachability.

Lemma turn_tracked fields st e : tracked st.1 → tracked (turn fields st e).1.
Proof.
  intros Ht. unfold turn. destruct (plan fields st.1 e) as [w|]; [|done].
  intros id. simpl. destruct (decide (e.2 = id)) as [<-|Hne].
  - rewrite !lookup_insert_eq. eauto.
  - rewrite !lookup_insert_ne by done. apply Ht.
Qed.

Lemma foldl_turn_tracked fields l st :
  tracked st.1 → tracked (foldl (turn fields) st l).1.
Proof.
  revert st. induction l as [|e l IH]; intros st Ht; simpl; [done|].
  by apply IH, turn_tracked.
Qed.

Lemma autoFillForm_tracked fields s : tracked s → tracked (autoFillForm fields s).
Proof.
  intros Ht. rewrite autoFillForm_eq. cbn zeta.
  assert (tracked (loop fields (with_hasLowConfidence false s, true)).1) as H
    by (by apply foldl_turn_tracked).
  by destruct (bool_decide (0 < size fields)).
Qed.

Lemma edit_fieldConfidences id v s :
  fieldConfidences (edit id v s) =
  match inputs s !! id with
  | Some _ => <[id := 1%Q]> (fieldConfidences s)
  | None => fieldConfidences s
  end.
Proof.
  unfold edit, onChange. destruct (inputs s !! id) as [i|] eqn:Hi; [|done].
  cbn [inputs with_inputs]. rewrite lookup_insert_eq.
  cbn [confDivs with_fieldConfidences with_inputs].
  by destruct (confDivs s !! (id +:+ "_conf")).
Qed.

Lemma edit_inputs_present id v s k :
  is_Some (inputs (edit id v s) !! k) ↔ is_Some (inputs s !! k).
Proof.
  unfold edit, onChange. destruct (inputs s !! id) as [i|] eqn:Hi; [|done].
  cbn [inputs with_inputs]. rewrite lookup_insert_eq.
  cbn [confDivs with_fieldConfidences with_inputs].
  assert (is_Some (<[id:={| input_value := v;
                            classList := classList_add "field-verified"
                              (classList_remove "low-confidence-field" (classList i)) |}]>
                     (<[id:={| input_value := v; classList := classList i |}]> (inputs s)) !! k)
          ↔ is_Some (inputs s !! k)) as H.
  { destruct (decide (id = k)) as [<-|Hne].
    - rewrite lookup_insert_eq, Hi. split; eauto.
    - by rewrite !lookup_insert_ne. }
  by destruct (confDivs s !! (id +:+ "_conf")).
Qed.

Lemma edit_tracked id v s : tracked s → tracked (edit id v s).
Proof.
  intros Ht k. rewrite edit_inputs_present, edit_fieldConfidences.
  destruct (inputs s !! id) as [i|] eqn:Hi; [|apply Ht].
  destruct (decide (id = k)) as [<-|Hne].
  - intros _. eauto.
  - rewrite lookup_insert_ne by done. apply Ht.
Qed.

Lemma step_tracked s e : tracked s → tracked (step s e).
Proof.
  intros Ht. destruct e as [fields|id v|net|net]; simpl.
  - by apply autoFillForm_tracked.
  - by apply edit_tracked.
  - unfold submit. destruct (hasLowConfidence s); [done|].
    destruct (submitForm_frame net s) as (Hi & _ & Hc & _).
    intros k. rewrite Hi, Hc. apply Ht.
  - unfold confirmSubmit.
    destruct (submitForm_frame net (with_modalShown false s)) as (Hi & _ & Hc & _).
    intros k. rewrite Hi, Hc. apply Ht.
Qed.

Lemma reachable_tracked s : reachable s → tracked s.
Proof.
  induction 1 as [s (Hc & _)|s e _ IH].
  - intros id. rewrite Hc, lookup_empty. by intros [? ?].
  - by apply step_tracked.
Qed.

Lemma reachable_run s es : reachable s → reachable (run s es).
Proof.
  revert s. induction es as [|e es IH]; intros s Hs; simpl; [done|].
  apply IH. by constructor.
Qed.

(** In a reachable state the confidence object is built. *)
Lemma tracked_buildConfidenceObject s :
  tracked s → ∃ m, buildConfidenceObject s = Ok m.
Proof.
  intros Ht. rewrite buildConfidenceObject_fold. apply foldl_addEntry_defined.
  intros e _. apply Ht.
Qed.

End Reachability.

Section Claims.

Lemma posts_fields net s fd :
  posts net s fd → buildConfidenceObject s = Ok (field_confidences fd).
Proof.
  intros H. apply submitForm_posted in H as [_ H]. by apply collectFormData_fields.
Qed.

Lemma fieldMap_api_functional api form form' :
  (api, form) ∈ fieldMap → (api, form') ∈ fieldMap → form = form'.
Proof.
  assert (Forall (λ x : string * string,
            Forall (λ y : string * string, x.1 ≠ y.1 ∨ x.2 = y.2) fieldMap) fieldMap)
    as H by (apply (bool_decide_unpack _); vm_compute; exact I).
  intros Hx Hy. rewrite Forall_forall in H. specialize (H _ Hx).
  rewrite Forall_forall in H. specialize (H _ Hy). simpl in H. by destruct H.
Qed.

Lemma buildConfidenceObject_sound s m api entry :
  buildConfidenceObject s = Ok m → m !! api = Some entry →
  ∃ form, (api, form) ∈ fieldMap ∧
    fieldConfidences s !! form = Some (entry_conf entry) ∧
    valueOf form s = Ok (entry_value entry).
Proof.
  rewrite buildConfidenceObject_fold. intros Hm Hl.
  by destruct (foldl_addEntry_sound s fieldMap ∅ m api entry Hm Hl).
Qed.

Lemma buildConfidenceObject_omits s m api form :
  buildConfidenceObject s = Ok m → (api, form) ∈ fieldMap →
  fieldConfidences s !! form = None → m !! api = None.
Proof.
  intros Hm Hin Hc. destruct (m !! api) as [entry|] eqn:Hl; [|done].
  destruct (buildConfidenceObject_sound s m api entry Hm Hl) as (form' & Hin' & Hc' & _).
  rewrite (fieldMap_api_functional api form form' Hin Hin') in Hc. congruence.
Qed.

Lemma buildConfidenceObject_scored s m api :
  buildConfidenceObject s = Ok m → is_Some (m !! api) → api ∈ scored_names.
Proof.
  intros Hm [entry Hl].
  destruct (buildConfidenceObject_sound s m api entry Hm Hl) as (form & Hin & _).
  change scored_names with (fieldMap.*1). apply list_elem_of_fmap.
  by exists (api, form).
Qed.

(** Without an auto-fill a verified field stays verified. *)
Lemma step_keeps_verified s e form :
  is_AutoFill e = false →
  fieldConfidences s !! form = Some 1%Q →
  fieldConfidences (step s e) !! form = Some 1%Q.
Proof.
  intros He Hc. destruct e as [fields|id v|net|net]; simpl; [done|..].
  - rewrite edit_fieldConfidences. destruct (inputs s !! id); [|done].
    destruct (decide (id = form)) as [->|Hne].
    + by rewrite lookup_insert_eq.
    + by rewrite lookup_insert_ne.
  - unfold submit. destruct (hasLowConfidence s); [done|].
    destruct (submitForm_frame net s) as (_ & _ & -> & _). done.
  - unfold confirmSubmit.
    destruct (submitForm_frame net (with_modalShown false s)) as (_ & _ & -> & _).
    done.
Qed.

Lemma run_keeps_verified s es form :
  Forall (λ e, is_AutoFill e = false) es →
  fieldConfidences s !! form = Some 1%Q →
  fieldConfidences (run s es) !! form = Some 1%Q.
Proof.
  revert s. induction es as [|e es IH]; intros s Hes Hc; simpl; [done|].
  apply Forall_cons in Hes as [He Hes]. by apply IH, step_keeps_verified.
Qed.

(** A field that no event touches has no recorded confidence. *)
Lemma foldl_turn_untouched fields l st form :
  (∀ e, e ∈ l → e.2 = form → fields !! e.1 = None) →
  fieldConfidences (foldl (turn fields) st l).1 !! form
  = fieldConfidences st.1 !! form.
Proof.
  revert st. induction l as [|e l IH]; intros st H; simpl; [done|].
  rewrite IH by (intros x Hx; apply H; by right).
  unfold turn. destruct (plan fields st.1 e) as [w|] eqn:Hp; [|done].
  simpl. destruct (decide (e.2 = form)) as [Heq|Hne].
  - unfold plan in Hp. rewrite (H e) in Hp; [done | left | done].
  - by rewrite lookup_insert_ne.
Qed.

Lemma step_untouched s e api form :
  (api, form) ∈ fieldMap → touches api form e = false →
  fieldConfidences (step s e) !! form = fieldConfidences s !! form.
Proof.
  intros Hin Ht. destruct e as [fields|id v|net|net]; simpl in *.
  - apply bool_decide_eq_false in Ht.
    rewrite autoFillForm_eq. cbn zeta.
    transitivity (fieldConfidences
      (loop fields (with_hasLowConfidence false s, true)).1 !! form);
      [by destruct (bool_decide (0 < size fields))|].
    unfold loop. rewrite foldl_turn_untouched; [done|].
    intros e He Hform. destruct (fieldMap_distinct e (api, form) He Hin) as [->|Hne].
    + simpl. destruct (fields !! api) eqn:Hf; [|done]. destruct Ht. eauto.
    + done.
  - apply bool_decide_eq_false in Ht. rewrite edit_fieldConfidences.
    destruct (inputs s !! id); [|done]. by rewrite lookup_insert_ne.
  - unfold submit. destruct (hasLowConfidence s); [done|].
    destruct (submitForm_frame net s) as (_ & _ & -> & _). done.
  - unfold confirmSubmit.
    destruct (submitForm_frame net (with_modalShown false s)) as (_ & _ & -> & _).
    done.
Qed.

Lemma run_untouched s es api form :
  (api, form) ∈ fieldMap → Forall (λ e, touches api form e = false) es →
  fieldConfidences (run s es) !! form = fieldConfidences s !! form.
Proof.
  intros Hin. revert s. induction es as [|e es IH]; intros s Hes; simpl; [done|].
  apply Forall_cons in Hes as [He Hes]. rewrite IH by done.
  by apply (step_untouched s e api form).
Qed.

End Claims.

(** C1, at the example of the specification. The form is filled from
    [{name: 0.9, hours: 0.4}] and the user then edits [hours]. At that moment
    every recorded confidence is high and no control carries the
    low-confidence mark, yet the flag the submit listener tests is still up:
    the listener opens the confirmation modal and posts nothing. *)
Theorem C1_prompt_after_verification :
  let s := run review_page [AutoFill sample_fields; Edit "hours" "40"] in
  map_Forall (λ _ c, confidence_level c = High) (fieldConfidences s) ∧
  map_Forall (λ _ i, "low-confidence-field" ∉ classList i) (inputs s) ∧
  hasLowConfidence s = true ∧
  modalShown (submit (FetchResponse true (JsonData "/result/42")) s).1 = true ∧
  requests (submit (FetchResponse true (JsonData "/result/42")) s).1 = [].
Proof.
  cbn zeta. split_and!.
  - apply (bool_decide_unpack _). vm_compute. exact I.
  - apply (bool_decide_unpack _). vm_compute. exact I.
  - vm_compute. reflexivity.
  - vm_compute. reflexivity.
  - vm_compute. reflexivity.
Qed.

(** C2, as stated, fails for the controls outside [fieldMap]: after the user
    edits [level], its confidence is recorded as 1, but the payload then
    posted has no entry for it (its map of confidences is empty). *)
Lemma C2_counterexample :
  let s := edit "level" "Advanced" review_page in
  fieldConfidences s !! "level" = Some 1%Q ∧
  field_confidences <$>
    requests (submit (FetchResponse true (JsonData "/result/42")) s).1 = [∅].
Proof. cbn zeta. split; vm_compute; reflexivity. Qed.

(** C2, amended. After the user edits the control of a scored field, its
    recorded confidence is 1, whose level is high, whatever was recorded
    before; and as long as no auto-fill runs again, whatever else is edited
    or submitted, the confidence object is built and holds for that field
    the control's current value with confidence 1, and so does every payload
    posted. *)
Theorem C2_edited_field_posted (s : Page) (api form v : string) (later : list event) :
  reachable s →
  (api, form) ∈ fieldMap →
  is_Some (inputs s !! form) →
  Forall (λ e, is_AutoFill e = false) later →
  let s' := run (edit form v s) later in
  fieldConfidences s' !! form = Some 1%Q ∧
  confidence_level 1 = High ∧
  ∃ m current,
    buildConfidenceObject s' = Ok m ∧
    valueOf form s' = Ok current ∧
    m !! api = Some {| entry_value := current; entry_conf := 1 |} ∧
    ∀ net fd, posts net s' fd →
      field_confidences fd !! api = Some {| entry_value := current; entry_conf := 1 |}.
Proof.
  intros Hs Hin [i Hi] Hlater s'.
  assert (fieldConfidences s' !! form = Some 1%Q) as Hc.
  { apply run_keeps_verified; [done|].
    by rewrite edit_fieldConfidences, Hi, lookup_insert_eq. }
  assert (tracked s') as Ht.
  { apply reachable_tracked, reachable_run.
    exact (reachable_step s (Edit form v) Hs). }
  destruct (tracked_buildConfidenceObject s' Ht) as [m Hm].
  destruct (Ht form) as [i' Hi']; [eauto|].
  assert (valueOf form s' = Ok (input_value i')) as Hv
    by (unfold valueOf; by rewrite Hi').
  assert (m !! api = Some {| entry_value := input_value i'; entry_conf := 1 |}) as Hl.
  { rewrite buildConfidenceObject_fold in Hm.
    exact (foldl_addEntry_complete s' fieldMap ∅ m api form 1 (input_value i')
             fieldMap_NoDup_api Hm Hin Hc Hv). }
  split_and!; [done | done |].
  exists m, (input_value i'). split_and!; [done..|].
  intros net fd Hp. apply posts_fields in Hp. rewrite Hm in Hp.
  injection Hp as <-. done.
Qed.

Lemma C2_edited_field_posted_witness :
  let s' := run (edit "hours" "40" (autoFillForm sample_fields review_page))
                [Edit "name" "Asha B"; Submit (FetchRejected "Failed to fetch")] in
  fieldConfidences s' !! "hours" = Some 1%Q ∧
  ∃ m, buildConfidenceObject s' = Ok m ∧
       m !! "hours" = Some {| entry_value := "40"; entry_conf := 1 |}.
Proof.
  cbn zeta.
  destruct (C2_edited_field_posted (autoFillForm sample_fields review_page)
              "hours" "hours" "40"
              [Edit "name" "Asha B"; Submit (FetchRejected "Failed to fetch")])
    as (Hc & _ & m & current & Hm & Hv & Hl & _).
  - apply (reachable_step review_page (AutoFill sample_fields)).
    apply reachable_fresh. repeat split; reflexivity.
  - apply (bool_decide_unpack _). vm_compute. exact I.
  - apply (bool_decide_unpack _). vm_compute. exact I.
  - repeat constructor.
  - split; [exact Hc|]. exists m. split; [exact Hm|].
    rewrite Hl. assert (current = "40") as ->; [|reflexivity].
    vm_compute in Hv. by injection Hv.
Defined.

(** C4. When the POST of a submission fails (the promise rejects, or the
    status is not a success), [submitForm] ends normally with the error
    region shown and reading "Submission failed: " followed by the error's
    message, the button enabled again under its label, exactly the one
    request issued, the page where it was, and the form as the user left
    it. *)
Theorem C4_submit_failure (net : fetch_outcome string) (s : Page) (fd : FormData) :
  is_Some (submitBtn s) →
  collectFormData s = Ok fd →
  request_failed net →
  let r := submitForm net s in
  r.2 = Fulfilled ∧
  errorSection_display r.1 = "block" ∧
  errorSection_textContent r.1 = "Submission failed: " +:+ error_message net ∧
  submitBtn r.1 = Some {| disabled := false; label := original_label |} ∧
  requests r.1 = requests s ++ [fd] ∧
  location r.1 = location s ∧
  inputs r.1 = inputs s ∧
  fieldConfidences r.1 = fieldConfidences s.
Proof.
  intros [b Hb] Hfd Hfail r. subst r. rewrite submitForm_eq, Hb, Hfd. cbn zeta.
  destruct net as [m|ok j]; simpl in Hfail; [|subst ok]; done.
Qed.

Lemma C4_submit_failure_witness :
  let r := submitForm (FetchResponse false (JsonData "")) review_page in
  r.2 = Fulfilled ∧
  errorSection_textContent r.1 = "Submission failed: Submission failed" ∧
  submitBtn r.1 = submitBtn review_page.
Proof.
  cbn zeta.
  assert (∃ fd, collectFormData review_page = Ok fd) as [fd Hfd]
    by (eexists; vm_compute; reflexivity).
  destruct (C4_submit_failure (FetchResponse false (JsonData "")) review_page fd)
    as (H1 & _ & H2 & H3 & _).
  - eexists. reflexivity.
  - exact Hfd.
  - reflexivity.
  - split_and!; [exact H1 | exact H2 | exact H3].
Defined.

(** C8. The map of confidences of a posted payload has an entry only for a
    scored field with a recorded confidence, holding that confidence and the
    control's value; a scored field without one is left out. In particular a
    field that no auto-fill result contained and no edit touched since the
    page was loaded is left out. *)
Theorem C8_payload_only_recorded (s0 : Page) (es : list event)
    (net : fetch_outcome string) (fd : FormData) :
  fresh s0 →
  let s := run s0 es in
  posts net s fd →
  (∀ api entry, field_confidences fd !! api = Some entry →
     ∃ form, (api, form) ∈ fieldMap ∧
       fieldConfidences s !! form = Some (entry_conf entry) ∧
       valueOf form s = Ok (entry_value entry)) ∧
  (∀ api form, (api, form) ∈ fieldMap →
     fieldConfidences s !! form = None → field_confidences fd !! api = None) ∧
  (∀ api form, (api, form) ∈ fieldMap →
     Forall (λ e, touches api form e = false) es →
     field_confidences fd !! api = None).
Proof.
  intros (Hc & _) s Hp. apply posts_fields in Hp. split_and!.
  - intros api entry. by apply buildConfidenceObject_sound.
  - intros api form. by apply buildConfidenceObject_omits.
  - intros api form Hin Hes.
    apply (buildConfidenceObject_omits s _ api form Hp Hin).
    subst s. rewrite (run_untouched s0 es api form Hin Hes), Hc. apply lookup_empty.
Qed.

Lemma C8_payload_only_recorded_witness :
  ∃ fd, posts (FetchRejected "Failed to fetch")
          (run review_page [AutoFill sample_fields; Edit "logs" "week 1"]) fd ∧
        field_confidences fd !! "organization" = None ∧
        dom (field_confidences fd) = {[ "name"; "hours" ]}.
Proof.
  assert (∃ fd, posts (FetchRejected "Failed to fetch")
            (run review_page [AutoFill sample_fields; Edit "logs" "week 1"]) fd
          ∧ dom (field_confidences fd) = {[ "name"; "hours" ]}) as (fd & Hp & Hd)
    by (eexists; split; vm_compute; reflexivity).
  exists fd. split; [exact Hp|]. split; [|exact Hd].
  refine (proj2 (proj2 (C8_payload_only_recorded review_page
            [AutoFill sample_fields; Edit "logs" "week 1"]
            (FetchRejected "Failed to fetch") fd _ Hp))
          "organization" "organization" _ _).
  - repeat split; reflexivity.
  - apply (bool_decide_unpack _). vm_compute. exact I.
  - repeat constructor.
Defined.

(** C10. In every reachable state the confidence object is built and its
    keys, like those of the map of every posted payload, are among the eight
    scored names. Editing [level] or [logs] records confidence 1 under the
    control's id, which is not a scored name, and neither the object nor any
    posted map has an entry under it. *)
Theorem C10_payload_keys_scored (s : Page) :
  reachable s →
  (∃ m, buildConfidenceObject s = Ok m ∧
        ∀ api, is_Some (m !! api) → api ∈ scored_names) ∧
  (∀ net fd, posts net s fd →
     ∀ api, is_Some (field_confidences fd !! api) → api ∈ scored_names) ∧
  (∀ id v, id = "level" ∨ id = "logs" → is_Some (inputs s !! id) →
     let s' := edit id v s in
     fieldConfidences s' !! id = Some 1%Q ∧
     (id ∉ scored_names) ∧
     (∃ m, buildConfidenceObject s' = Ok m ∧ m !! id = None) ∧
     ∀ net fd, posts net s' fd → field_confidences fd !! id = None).
Proof.
  intros Hs.
  assert (∀ id, id = "level" ∨ id = "logs" → id ∉ scored_names) as Hout.
  { intros id [-> | ->]; apply (bool_decide_unpack _); vm_compute; exact I. }
  assert (∀ (s1 : Page) (m : gmap string ConfEntry) (id : string),
            id ∉ scored_names → buildConfidenceObject s1 = Ok m →
            m !! id = None) as Hnone.
  { intros s1 m id Hid Hm. destruct (m !! id) as [entry|] eqn:Hl; [|done].
    destruct Hid. apply (buildConfidenceObject_scored s1 m id Hm). eauto. }
  split_and!.
  - destruct (tracked_buildConfidenceObject s (reachable_tracked s Hs)) as [m Hm].
    exists m. split; [done|]. intros api.
    exact (buildConfidenceObject_scored s m api Hm).
  - intros net fd Hp api. apply posts_fields in Hp.
    exact (buildConfidenceObject_scored s _ api Hp).
  - intros id v Hid [i Hi] s'. split_and!.
    + subst s'. by rewrite edit_fieldConfidences, Hi, lookup_insert_eq.
    + by apply Hout.
    + assert (tracked s') as Ht
        by exact (reachable_tracked _ (reachable_step s (Edit id v) Hs)).
      destruct (tracked_buildConfidenceObject s' Ht) as [m Hm].
      exists m. split; [done|]. apply (Hnone s'); [by apply Hout | done].
    + intros net fd Hp. apply posts_fields in Hp.
      apply (Hnone s'); [by apply Hout | done].
Qed.

Lemma C10_payload_keys_scored_witness :
  let s := run review_page [AutoFill sample_fields] in
  fieldConfidences (edit "logs" "week 1" s) !! "logs" = Some 1%Q ∧
  ∃ m, buildConfidenceObject (edit "logs" "week 1" s) = Ok m ∧ m !! "logs" = None.
Proof.
  cbn zeta.
  destruct (proj2 (proj2 (C10_payload_keys_scored
              (run review_page [AutoFill sample_fields])
              (reachable_run review_page [AutoFill sample_fields]
                 (reachable_fresh review_page
                    (conj eq_refl (conj eq_refl eq_refl))))))
            "logs" "week 1") as (Hc & _ & Hm & _).
  - by right.
  - apply (bool_decide_unpack _). vm_compute. exact I.
  - split; [exact Hc | exact Hm].
Defined.

(** ** The flag behind the confirmation prompt *)

(** The change listener never writes the flag that the submit listener
    tests. *)
Lemma edit_keeps_hasLowConfidence (id v : string) (s : Page) :
  hasLowConfidence (edit id v s) = hasLowConfidence s.
Proof.
  unfold edit, onChange. destruct (inputs s !! id) as [i|]; [|done].
  cbn [inputs with_inputs]. rewrite lookup_insert_eq.
  cbn [confDivs with_fieldConfidences with_inputs].
  by destruct (confDivs s !! (id +:+ "_conf")).
Qed.

(** X1. [autoFillForm] leaves the flag up exactly when it has filled in a
    recognized field of medium or low confidence whose control and badge are
    on the page. *)
Theorem autoFillForm_hasLowConfidence
    (fields : gmap string ExtractedField) (s : Page) :
  hasLowConfidence (autoFillForm fields s) = true ↔
  ∃ api form f,
    (api, form) ∈ fieldMap ∧ fields !! api = Some f ∧ value f ≠ "" ∧
    is_Some (inputs s !! form) ∧ is_Some (confDivs s !! (form +:+ "_conf")) ∧
    (field_level f = Medium ∨ field_level f = Low).
Proof.
  assert (hasLowConfidence (autoFillForm fields s) = attention fields s) as ->.
  { rewrite autoFillForm_eq. cbn zeta.
    by destruct (bool_decide (0 < size fields)). }
  rewrite attention_true. unfold field_level.
  split; intros (api & form & f & H1 & H2 & H3 & H4 & H5 & H6);
    exists api, form, f; split_and!; try done;
    by apply needs_verification_level.
Qed.

(** X2. Between two auto-fills the prompt is decided by the first of them:
    whatever the user edits or submits, the submit listener opens the modal
    exactly when that auto-fill left the flag up. *)
Theorem prompt_cached_from_autoFill
    (fields : gmap string ExtractedField) (s : Page) (later : list event)
    (net : fetch_outcome string) :
  Forall (λ e, is_AutoFill e = false) later →
  let s' := run (autoFillForm fields s) later in
  hasLowConfidence s' = hasLowConfidence (autoFillForm fields s) ∧
  (hasLowConfidence (autoFillForm fields s) = true →
   submit net s' = (with_modalShown true s', Fulfilled)) ∧
  (hasLowConfidence (autoFillForm fields s) = false →
   submit net s' = submitForm net s').
Proof.
  intros Hlater s'.
  assert (hasLowConfidence s' = hasLowConfidence (autoFillForm fields s)) as Hflag.
  { subst s'. generalize (autoFillForm fields s). intros s0. revert s0.
    induction later as [|e es IH]; intros s0; simpl; [done|].
    apply Forall_cons in Hlater as [He Hes]. rewrite (IH Hes).
    destruct e as [fs|id v|n|n]; simpl; [done|..].
    - apply edit_keeps_hasLowConfidence.
    - unfold submit. destruct (hasLowConfidence s0) eqn:E; [done|].
      destruct (submitForm_frame n s0) as (_ & _ & _ & -> & _). done.
    - unfold confirmSubmit.
      destruct (submitForm_frame n (with_modalShown false s0))
        as (_ & _ & _ & -> & _). done. }
  split; [done|]. unfold submit. rewrite Hflag.
  split; intros ->; reflexivity.
Qed.

Lemma prompt_cached_from_autoFill_witness :
  let s' := run (autoFillForm sample_fields review_page)
              [Edit "hours" "40"; Edit "name" "Asha B"] in
  submit (FetchRejected "Failed to fetch") s' = (with_modalShown true s', Fulfilled).
Proof.
  cbn zeta.
  refine (proj1 (proj2 (prompt_cached_from_autoFill sample_fields review_page
            [Edit "hours" "40"; Edit "name" "Asha B"]
            (FetchRejected "Failed to fetch") _)) _).
  - repeat constructor.
  - vm_compute. reflexivity.
Defined.

(** X3. A successful upload ends on the address the service answered,
    after the one request of the click, the progress bar full and the error
    region hidden. *)
Theorem upload_success_navigates (url : string) (p : Upload.Page) :
  Upload.hasFile p ≠ Upload.hasText p →
  let q := Upload.click (FetchResponse true (JsonData url)) p in
  Upload.location q = Some url ∧
  Upload.requests q = Upload.requests p ++ [Upload.request p] ∧
  Upload.progressBar_width q = "100%" ∧
  Upload.errorSection_display q = "none".
Proof.
  intros Hne q. subst q. unfold Upload.click.
  destruct (Upload.hasFile p), (Upload.hasText p); done.
Qed.

Lemma upload_success_navigates_witness :
  Upload.location
    (Upload.click (FetchResponse true (JsonData "/student_form?upload_id=42"))
       pasted_page)
  = Some "/student_form?upload_id=42".
Proof.
  refine (proj1 (upload_success_navigates "/student_form?upload_id=42"
                   pasted_page _)).
  vm_compute. discriminate.
Defined.

(** * Further properties of student_form.js *)

Section AutoFillEffect.

Context (fields : gmap string ExtractedField).

(** A turn for another control leaves this one alone. *)
Lemma turn_view st (x : string * string) (form : string) :
  x.2 ≠ form → view (turn fields st x).1 form = view st.1 form.
Proof.
  intros Hne. unfold turn. destruct (plan fields st.1 x) as [w|]; [|done].
  unfold view. simpl. rewrite !lookup_insert_ne by done.
  destruct (fill_div w) as [d|]; [|done].
  rewrite lookup_insert_ne; [done|]. intros H. by apply conf_id_inj in H.
Qed.




(** The flag and the banner apart, [autoFillForm] is the loop. *)
Lemma autoFillForm_view s (form : string) :
  view (autoFillForm fields s) form =
  view (loop fields (with_hasLowConfidence false s, true)).1 form.
Proof.
  rewrite autoFillForm_eq. cbn zeta. by destruct (bool_decide (0 < size fields)).
Qed.


Lemma foldl_turn_view_skip l st (form : string) :
  (∀ e : string * string, e ∈ l → e.2 = form → has_value fields e = false) →
  view (foldl (turn fields) st l).1 form = view st.1 form.
Proof.
  revert st. induction l as [|x l IH]; intros st Hl; simpl; [done|].
  rewrite IH by (intros y Hy; apply Hl; by right).
  destruct (decide (x.2 = form)) as [Heq|Hne]; [|by apply turn_view].
  assert (has_value fields x = false) as Hv by (apply Hl; [left | done]).
  unfold turn, plan. unfold has_value in Hv.
  destruct (fields !! x.1) as [f|]; [|done].
  apply negb_false_iff in Hv. rewrite Hv.
  by destruct (inputs st.1 !! x.2).
Qed.

Lemma autoFillForm_view_other s (form : string) :
  (∀ e : string * string, e ∈ fieldMap → e.2 = form → has_value fields e = false) →
  view (autoFillForm fields s) form = view s form.
Proof.
  intros H. rewrite autoFillForm_view. unfold loop.
  by rewrite foldl_turn_view_skip.
Qed.

(** What [autoFillForm] leaves outside the controls, badges, confidences,
    flag and banner. *)
Lemma foldl_turn_rest l st :
  let s' := (foldl (turn fields) st l).1 in
  uploadId s' = uploadId st.1 ∧ requests s' = requests st.1 ∧
  location s' = location st.1 ∧ submitBtn s' = submitBtn st.1 ∧
  modalShown s' = modalShown st.1 ∧
  errorSection_display s' = errorSection_display st.1 ∧
  errorSection_textContent s' = errorSection_textContent st.1.
Proof.
  revert st. induction l as [|x l IH]; intros st; simpl; [done|].
  destruct (IH (turn fields st x)) as (H1 & H2 & H3 & H4 & H5 & H6 & H7).
  rewrite H1, H2, H3, H4, H5, H6, H7. unfold turn.
  by destruct (plan fields st.1 x).
Qed.

Lemma autoFillForm_rest s :
  let s' := autoFillForm fields s in
  uploadId s' = uploadId s ∧ requests s' = requests s ∧
  location s' = location s ∧ submitBtn s' = submitBtn s ∧
  modalShown s' = modalShown s ∧
  errorSection_display s' = errorSection_display s ∧
  errorSection_textContent s' = errorSection_textContent s.
Proof.
  cbn zeta. rewrite autoFillForm_eq. cbn zeta.
  pose proof (foldl_turn_rest fieldMap (with_hasLowConfidence false s, true)) as H.
  cbn zeta in H. fold (loop fields (with_hasLowConfidence false s, true)) in H.
  by destruct (bool_decide (0 < size fields)).
Qed.

End AutoFillEffect.

Section EditEffect.

Lemma classList_remove_elem (c d : string) (l : list string) :
  d ∈ classList_remove c l ↔ d ∈ l ∧ d ≠ c.
Proof. unfold classList_remove. rewrite list_elem_of_filter. tauto. Qed.

Lemma classList_add_elem_iff (c d : string) (l : list string) :
  d ∈ classList_add c l ↔ d = c ∨ d ∈ l.
Proof.
  unfold classList_add. case_bool_decide as H.
  - split; [by right | by intros [->|?]].
  - rewrite elem_of_app, list_elem_of_singleton. tauto.
Qed.

(** The change listener on a control of the page, in one piece. *)
Lemma edit_eq (id v : string) (s : Page) (i : Input) :
  inputs s !! id = Some i →
  edit id v s =
  let field :=
    {| input_value := v;
       classList := classList_add "field-verified"
                      (classList_remove "low-confidence-field" (classList i)) |} in
  let s1 := with_fieldConfidences (<[id := 1%Q]> (fieldConfidences s))
              (with_inputs (<[id := field]> (inputs s)) s) in
  match confDivs s !! (id +:+ "_conf") with
  | Some _ => with_confDivs (<[id +:+ "_conf" := verified_badge]> (confDivs s)) s1
  | None => s1
  end.
Proof.
  intros Hi. unfold edit, onChange. rewrite Hi.
  cbn [inputs with_inputs]. rewrite lookup_insert_eq.
  cbn [confDivs with_fieldConfidences with_inputs input_value classList].
  rewrite insert_insert_eq. by destruct (confDivs s !! (id +:+ "_conf")).
Qed.

Lemma edit_view (id v : string) (s : Page) (i : Input) :
  inputs s !! id = Some i →
  view (edit id v s) id =
  (Some {| input_value := v;
           classList := classList_add "field-verified"
                          (classList_remove "low-confidence-field" (classList i)) |},
   Some 1%Q,
   (λ _, verified_badge) <$> confDivs s !! (id +:+ "_conf")).
Proof.
  intros Hi. rewrite (edit_eq id v s i Hi). cbn zeta. unfold view.
  destruct (confDivs s !! (id +:+ "_conf")) as [d|] eqn:Hd; simpl;
    rewrite ?lookup_insert_eq, ?Hd; done.
Qed.

Lemma edit_other (id v : string) (s : Page) :
  let s' := edit id v s in
  (∀ k, k ≠ id → inputs s' !! k = inputs s !! k ∧
                 fieldConfidences s' !! k = fieldConfidences s !! k) ∧
  (∀ k, k ≠ id +:+ "_conf" → confDivs s' !! k = confDivs s !! k) ∧
  confidenceIndicator s' = confidenceIndicator s ∧
  requests s' = requests s ∧ location s' = location s ∧
  submitBtn s' = submitBtn s ∧ modalShown s' = modalShown s ∧
  errorSection_display s' = errorSection_display s ∧
  errorSection_textContent s' = errorSection_textContent s.
Proof.
  cbn zeta. destruct (inputs s !! id) as [i|] eqn:Hi;
    [|by unfold edit; rewrite Hi].
  rewrite (edit_eq id v s i Hi). cbn zeta.
  destruct (confDivs s !! (id +:+ "_conf")) as [d|]; simpl; split_and!; try done.
  - intros k Hk. by rewrite !lookup_insert_ne.
  - intros k Hk. by rewrite lookup_insert_ne.
  - intros k Hk. by rewrite !lookup_insert_ne.
Qed.

End EditEffect.



(** X5. [autoFillForm] writes nothing else: the upload id, the requests
    issued, the address, the submit button, the modal and the error region
    are as before, and so are the control, the recorded confidence and the
    badge of every id for which the extraction result has no value (among
    them [level], [logs] and every id outside [fieldMap]). *)
Theorem autoFillForm_touches_only_filled
    (fields : gmap string ExtractedField) (s : Page) :
  let s' := autoFillForm fields s in
  (uploadId s' = uploadId s ∧ requests s' = requests s ∧
   location s' = location s ∧ submitBtn s' = submitBtn s ∧
   modalShown s' = modalShown s ∧
   errorSection_display s' = errorSection_display s ∧
   errorSection_textContent s' = errorSection_textContent s) ∧
  ∀ id : string,
    (∀ e : string * string, e ∈ fieldMap → e.2 = id → has_value fields e = false) →
    inputs s' !! id = inputs s !! id ∧
    fieldConfidences s' !! id = fieldConfidences s !! id ∧
    confDivs s' !! (id +:+ "_conf") = confDivs s !! (id +:+ "_conf").
Proof.
  intros s'. subst s'. split; [apply autoFillForm_rest|].
  intros id H. pose proof (autoFillForm_view_other fields s id H) as Hview.
  unfold view in Hview. by injection Hview as -> -> ->.
Qed.



(** X7. After the user edits a control of the page, the control holds the
    new value, no longer carries [low-confidence-field] and carries
    [field-verified]; its badge, when it has one, is the verified badge;
    and nothing else on the page changes: not the other controls,
    confidences and badges, nor the banner, the flag behind the prompt, the
    requests, the address, the button, the modal or the error region. *)
Theorem edit_marks_verified (id v : string) (s : Page) (i : Input) :
  inputs s !! id = Some i →
  let s' := edit id v s in
  let classes := classList_add "field-verified"
                   (classList_remove "low-confidence-field" (classList i)) in
  inputs s' !! id = Some {| input_value := v; classList := classes |} ∧
  ("low-confidence-field" ∉ classes) ∧
  "field-verified" ∈ classes ∧
  (∀ c : string, c ∈ classList i → c ≠ "low-confidence-field" → c ∈ classes) ∧
  confDivs s' !! (id +:+ "_conf")
    = (λ _, verified_badge) <$> confDivs s !! (id +:+ "_conf") ∧
  (∀ k, k ≠ id → inputs s' !! k = inputs s !! k ∧
                 fieldConfidences s' !! k = fieldConfidences s !! k) ∧
  (∀ k, k ≠ id +:+ "_conf" → confDivs s' !! k = confDivs s !! k) ∧
  confidenceIndicator s' = confidenceIndicator s ∧
  hasLowConfidence s' = hasLowConfidence s ∧
  requests s' = requests s ∧ location s' = location s ∧
  submitBtn s' = submitBtn s ∧ modalShown s' = modalShown s ∧
  errorSection_display s' = errorSection_display s ∧
  errorSection_textContent s' = errorSection_textContent s.
Proof.
  intros Hi s' classes.
  pose proof (edit_view id v s i Hi) as Hview. fold s' in Hview.
  unfold view in Hview. injection Hview as H1 _ H3.
  destruct (edit_other id v s) as (H4 & H5 & H6 & H7 & H8 & H9 & H10 & H11 & H12).
  fold s' in H4, H5, H6, H7, H8, H9, H10, H11, H12.
  split_and!; try done.
  - subst classes. rewrite classList_add_elem_iff, classList_remove_elem.
    intros [H|[_ H]]; [discriminate | done].
  - subst classes. apply classList_add_elem_iff. by left.
  - intros c Hc Hne. subst classes.
    apply classList_add_elem_iff. right. by apply classList_remove_elem.
  - apply edit_keeps_hasLowConfidence.
Qed.

Lemma edit_marks_verified_witness :
  let s := autoFillForm sample_fields review_page in
  inputs (edit "hours" "40" s) !! "hours" =
    Some {| input_value := "40";
            classList := ["form-control"; "animate-fill"; "field-verified"] |} ∧
  inputs (edit "hours" "40" s) !! "name" = inputs s !! "name".
Proof.
  cbn zeta.
  destruct (edit_marks_verified "hours" "40"
              (autoFillForm sample_fields review_page)
              {| input_value := "120";
                 classList := ["form-control"; "animate-fill"; "low-confidence-field"] |})
    as (H1 & _ & _ & _ & _ & H2 & _).
  - vm_compute. reflexivity.
  - split; [rewrite H1; vm_compute; reflexivity|].
    apply (H2 "name"). discriminate.
Defined.

Section SubmissionEffect.

(** The payload depends on the upload id, the controls and the recorded
    confidences only. *)
Lemma collectFormData_ext (s s' : Page) :
  uploadId s' = uploadId s → inputs s' = inputs s →
  fieldConfidences s' = fieldConfidences s →
  collectFormData s' = collectFormData s.
Proof.
  intros H1 H2 H3. unfold collectFormData, buildConfidenceObject, valueOf.
  by rewrite H1, H2, H3.
Qed.

Lemma submitForm_uploadId net s : uploadId (submitForm net s).1 = uploadId s.
Proof.
  rewrite submitForm_eq. unfold catch.
  destruct (submitBtn s) as [b|] eqn:Hb; simpl; [|by rewrite Hb].
  destruct (collectFormData s) as [fd'|msg]; simpl; [|done].
  by destruct net as [m|[] [u|m]].
Qed.

(** The values of the payload are those of the controls. *)
Lemma collectFormData_values (s : Page) (fd : FormData) (id : string) :
  collectFormData s = Ok fd → id ∈ form_controls →
  ∃ i, inputs s !! id = Some i ∧ payload_value fd id = Some (input_value i).
Proof.
  unfold collectFormData, valueOf. intros H Hid.
  destruct (inputs s !! "name") as [i1|] eqn:H1; [|done].
  destruct (inputs s !! "apaarId") as [i2|] eqn:H2; [|done].
  destruct (inputs s !! "institutionCode") as [i3|] eqn:H3; [|done].
  destruct (inputs s !! "organization") as [i4|] eqn:H4; [|done].
  destruct (inputs s !! "internshipTitle") as [i5|] eqn:H5; [|done].
  destruct (inputs s !! "startDate") as [i6|] eqn:H6; [|done].
  destruct (inputs s !! "endDate") as [i7|] eqn:H7; [|done].
  destruct (inputs s !! "hours") as [i8|] eqn:H8; [|done].
  destruct (inputs s !! "level") as [i9|] eqn:H9; [|done].
  destruct (inputs s !! "logs") as [i10|] eqn:H10; [|done].
  simpl in H. destruct (buildConfidenceObject s) as [m|]; [|done].
  simpl in H. injection H as <-.
  unfold form_controls in Hid.
  repeat (apply elem_of_cons in Hid as [->|Hid]; [eauto|]).
  by apply elem_of_nil in Hid.
Qed.

(** A control that lines 149-158 read is missing: the payload is not
    built. *)
Lemma collectFormData_missing (s : Page) (id : string) :
  id ∈ form_controls → inputs s !! id = None →
  ∃ message, collectFormData s = Throw message.
Proof.
  intros Hid Hi. destruct (collectFormData s) as [fd|message] eqn:E; [|eauto].
  destruct (collectFormData_values s fd id E Hid) as (i & Hi' & _). congruence.
Qed.

Lemma collectFormData_uploadId (s : Page) (fd : FormData) :
  collectFormData s = Ok fd → upload_id fd = uploadId s.
Proof.
  unfold collectFormData. intros H.
  destruct (valueOf "name" s); [|done]. destruct (valueOf "apaarId" s); [|done].
  destruct (valueOf "institutionCode" s); [|done].
  destruct (valueOf "organization" s); [|done].
  destruct (valueOf "internshipTitle" s); [|done].
  destruct (valueOf "startDate" s); [|done]. destruct (valueOf "endDate" s); [|done].
  destruct (valueOf "hours" s); [|done]. destruct (valueOf "level" s); [|done].
  destruct (valueOf "logs" s); [|done]. simpl in H.
  destruct (buildConfidenceObject s); [|done]. simpl in H. by injection H as <-.
Qed.

(** After a failed POST the button is back. *)
Lemma submitForm_failed_button net s fd :
  is_Some (submitBtn s) → collectFormData s = Ok fd → request_failed net →
  submitBtn (submitForm net s).1
  = Some {| disabled := false; label := original_label |}.
Proof.
  intros [b Hb] Hfd Hfail. rewrite submitForm_eq, Hb, Hfd. cbn zeta.
  destruct net as [m|ok j]; simpl in Hfail; [|subst ok]; done.
Qed.

Lemma prefix_append (a b : string) : String.prefix a (a +:+ b) = true.
Proof.
  induction a as [|c a IH]; simpl; [by destruct b|].
  destruct (ascii_dec c c); [exact IH | done].
Qed.

Lemma submitForm_requests net s :
  requests (submitForm net s).1 = requests s ∨
  ∃ fd, requests (submitForm net s).1 = requests s ++ [fd].
Proof.
  rewrite submitForm_eq. unfold catch.
  destruct (submitBtn s) as [b|] eqn:Hb; simpl; [|left; by rewrite Hb].
  destruct (collectFormData s) as [fd|msg]; simpl; [|by left].
  right. exists fd. by destruct net as [m|[] [u|m]].
Qed.

End SubmissionEffect.

(** X8. A submission whose POST succeeds issues that one request with the
    collected payload, leaves the page for the [redirect_url] of the answer,
    and leaves the submit button disabled under the label "Processing...";
    the error region is not touched. *)
Theorem submitForm_success (url : string) (s : Page) (fd : FormData) :
  is_Some (submitBtn s) →
  collectFormData s = Ok fd →
  let r := submitForm (FetchResponse true (JsonData url)) s in
  r.2 = Fulfilled ∧
  location r.1 = Some url ∧
  requests r.1 = requests s ++ [fd] ∧
  submitBtn r.1 = Some {| disabled := true; label := "Processing..." |} ∧
  errorSection_display r.1 = errorSection_display s ∧
  errorSection_textContent r.1 = errorSection_textContent s.
Proof.
  intros [b Hb] Hfd r. subst r. by rewrite submitForm_eq, Hb, Hfd.
Qed.

Lemma submitForm_success_witness :
  location (submitForm (FetchResponse true (JsonData "/result/42")) review_page).1
  = Some "/result/42".
Proof.
  assert (∃ fd, collectFormData review_page = Ok fd) as [fd Hfd]
    by (eexists; vm_compute; reflexivity).
  refine (proj1 (proj2 (submitForm_success "/result/42" review_page fd _ Hfd))).
  eexists. reflexivity.
Defined.

(** X9. The payload of a posted submission carries the upload id of the
    page and, for each of the ten controls of the form, the value the
    control has when the submission starts; hence a value the user has just
    typed into a control is the value posted for it. *)
Theorem posted_values_are_current (net : fetch_outcome string) (s : Page)
    (fd : FormData) :
  posts net s fd →
  upload_id fd = uploadId s ∧
  (∀ id, id ∈ form_controls →
     ∃ i, inputs s !! id = Some i ∧ payload_value fd id = Some (input_value i)) ∧
  (∀ id v s0, s = edit id v s0 → id ∈ form_controls →
     payload_value fd id = Some v).
Proof.
  intros Hp. apply submitForm_posted in Hp as [_ Hfd]. split_and!.
  - by apply collectFormData_uploadId.
  - intros id Hid. by apply collectFormData_values.
  - intros id v s0 -> Hid.
    destruct (collectFormData_values _ fd id Hfd Hid) as (i & Hi & Hv).
    assert (is_Some (inputs s0 !! id)) as [i0 Hi0]
      by (apply (edit_inputs_present id v s0 id); eauto).
    pose proof (edit_view id v s0 i0 Hi0) as Hview. unfold view in Hview.
    injection Hview as Hi' _ _. rewrite Hi' in Hi. injection Hi as <-. done.
Qed.

Lemma posted_values_are_current_witness :
  ∃ fd, posts (FetchRejected "Failed to fetch") (edit "logs" "week 1" review_page) fd
        ∧ payload_value fd "logs" = Some "week 1".
Proof.
  assert (∃ fd, posts (FetchRejected "Failed to fetch")
                  (edit "logs" "week 1" review_page) fd) as [fd Hp]
    by (eexists; vm_compute; reflexivity).
  exists fd. split; [exact Hp|].
  refine (proj2 (proj2 (posted_values_are_current _ _ fd Hp))
            "logs" "week 1" review_page eq_refl _).
  apply (bool_decide_unpack _). vm_compute. exact I.
Defined.

(** X10. When one of the ten controls that [submitForm] reads is missing
    from the page, the submission never reaches the network: whatever the
    service would answer, no request is issued and the page stays where it
    is; the error region is shown with a text starting "Submission failed: ",
    and the button is enabled again under its label. *)
Theorem submitForm_missing_control (net : fetch_outcome string) (s : Page)
    (id : string) :
  id ∈ form_controls →
  inputs s !! id = None →
  is_Some (submitBtn s) →
  let r := submitForm net s in
  r.2 = Fulfilled ∧
  requests r.1 = requests s ∧
  location r.1 = location s ∧
  errorSection_display r.1 = "block" ∧
  String.prefix "Submission failed: " (errorSection_textContent r.1) = true ∧
  submitBtn r.1 = Some {| disabled := false; label := original_label |}.
Proof.
  intros Hid Hi [b Hb] r. subst r.
  destruct (collectFormData_missing s id Hid Hi) as [message Hm].
  rewrite submitForm_eq, Hb, Hm. cbn zeta. unfold catch. simpl.
  split_and!; try done. apply prefix_append.
Qed.

Lemma submitForm_missing_control_witness :
  let s := with_inputs (delete "logs" (inputs review_page)) review_page in
  requests (submitForm (FetchResponse true (JsonData "/result/42")) s).1 = [] ∧
  location (submitForm (FetchResponse true (JsonData "/result/42")) s).1 = None.
Proof.
  cbn zeta.
  destruct (submitForm_missing_control (FetchResponse true (JsonData "/result/42"))
              (with_inputs (delete "logs" (inputs review_page)) review_page) "logs")
    as (_ & H1 & H2 & _).
  - apply (bool_decide_unpack _). vm_compute. exact I.
  - vm_compute. reflexivity.
  - eexists. reflexivity.
  - split; [exact H1 | exact H2].
Defined.

(** X11. A failed submission leaves the form as the user left it, so that
    submitting again, without editing in between, posts the same payload a
    second time and nothing else. *)
Theorem resubmission_posts_same_payload (net1 net2 : fetch_outcome string)
    (s : Page) (fd : FormData) :
  posts net1 s fd →
  request_failed net1 →
  let s1 := (submitForm net1 s).1 in
  inputs s1 = inputs s ∧
  fieldConfidences s1 = fieldConfidences s ∧
  posts net2 s1 fd ∧
  requests (submitForm net2 s1).1 = requests s ++ [fd; fd].
Proof.
  intros Hp Hfail s1.
  destruct (submitForm_posted net1 s fd Hp) as [Hb Hfd].
  destruct (submitForm_frame net1 s) as (Hi & _ & Hc & _). fold s1 in Hi, Hc.
  pose proof (submitForm_failed_button net1 s fd Hb Hfd Hfail) as Hbtn.
  fold s1 in Hbtn.
  assert (collectFormData s1 = Ok fd) as Hfd1.
  { rewrite <- Hfd. apply collectFormData_ext; [apply submitForm_uploadId|done..]. }
  assert (posts net2 s1 fd) as Hp2.
  { unfold posts. rewrite submitForm_eq, Hbtn, Hfd1. cbn zeta. unfold catch.
    by destruct net2 as [m|[] [u|m]]. }
  split_and!; try done.
  unfold posts in Hp2, Hp. fold s1 in Hp. rewrite Hp2, Hp, <- app_assoc. done.
Qed.

Lemma resubmission_posts_same_payload_witness :
  ∃ fd,
    requests
      (submitForm (FetchResponse true (JsonData "/result/42"))
         (submitForm (FetchRejected "Failed to fetch") review_page).1).1
    = [fd; fd].
Proof.
  assert (∃ fd, posts (FetchRejected "Failed to fetch") review_page fd) as [fd Hp]
    by (eexists; vm_compute; reflexivity).
  exists fd.
  exact (proj2 (proj2 (proj2
    (resubmission_posts_same_payload (FetchRejected "Failed to fetch")
       (FetchResponse true (JsonData "/result/42")) review_page fd Hp I)))).
Defined.

Section Requests.

Lemma step_requests (s : Page) (e : event) :
  ∃ l, requests (step s e) = requests s ++ l ∧
       (length l ≤ (if is_submission e then 1 else 0))%nat.
Proof.
  destruct e as [fields|id v|net|net]; simpl.
  - exists []. destruct (autoFillForm_rest fields s) as (_ & -> & _).
    by rewrite app_nil_r.
  - exists []. destruct (edit_other id v s) as (_ & _ & _ & -> & _).
    by rewrite app_nil_r.
  - unfold submit. destruct (hasLowConfidence s).
    + exists []. simpl. rewrite app_nil_r. split; [done | lia].
    + destruct (submitForm_requests net s) as [->|[fd ->]].
      * exists []. rewrite app_nil_r. split; [done | simpl; lia].
      * by exists [fd].
  - unfold confirmSubmit.
    destruct (submitForm_requests net (with_modalShown false s)) as [->|[fd ->]].
    + exists []. rewrite app_nil_r. split; [done | simpl; lia].
    + by exists [fd].
Qed.

End Requests.

(** X12. No listener issues more than one request, and none takes a request
    back: over any sequence of events the requests posted before stay at the
    head of the list, an auto-fill or an edit adds none, and the number
    added is at most the number of submit events and confirming clicks. *)
Theorem requests_only_from_submissions (s : Page) (es : list event) :
  ∃ l, requests (run s es) = requests s ++ l ∧
       (length l ≤ length (filter (λ e, is_submission e = true) es))%nat.
Proof.
  revert s. induction es as [|e es IH]; intros s; simpl.
  - exists []. by rewrite app_nil_r.
  - destruct (step_requests s e) as (l1 & H1 & Hl1).
    destruct (IH (step s e)) as (l2 & H2 & Hl2).
    exists (l1 ++ l2). fold (run (step s e) es). rewrite H2, H1, app_assoc.
    split; [done|]. rewrite length_app, filter_cons.
    destruct (decide (is_submission e = true)) as [E|E].
    + rewrite E in Hl1. simpl. lia.
    + apply not_true_is_false in E. rewrite E in Hl1. lia.
Qed.

(** X13. In every reachable state the confidence object is built, and for
    each entry of [fieldMap] it holds, under the API name, the current value
    of the control with the confidence recorded for it, or nothing when no
    confidence is recorded. *)
Theorem buildConfidenceObject_lookup (s : Page) :
  reachable s →
  ∃ m, buildConfidenceObject s = Ok m ∧
    ∀ api form, (api, form) ∈ fieldMap →
      m !! api =
      match fieldConfidences s !! form, inputs s !! form with
      | Some c, Some i => Some {| entry_value := input_value i; entry_conf := c |}
      | _, _ => None
      end.
Proof.
  intros Hs. pose proof (reachable_tracked s Hs) as Ht.
  destruct (tracked_buildConfidenceObject s Ht) as [m Hm].
  exists m. split; [done|]. intros api form Hin.
  destruct (fieldConfidences s !! form) as [c|] eqn:Hc.
  - destruct (Ht form) as [i Hi]; [eauto|]. rewrite Hi.
    rewrite buildConfidenceObject_fold in Hm.
    apply (foldl_addEntry_complete s fieldMap ∅ m api form c (input_value i)
             fieldMap_NoDup_api Hm Hin Hc).
    unfold valueOf. by rewrite Hi.
  - by apply (buildConfidenceObject_omits s m api form).
Qed.

Lemma buildConfidenceObject_lookup_witness :
  ∃ m, buildConfidenceObject (run review_page [AutoFill sample_fields]) = Ok m ∧
       m !! "name" = Some {| entry_value := "Asha"; entry_conf := 9 # 10 |} ∧
       m !! "end_date" = None.
Proof.
  destruct (buildConfidenceObject_lookup (run review_page [AutoFill sample_fields]))
    as (m & Hm & Hl).
  - apply reachable_run, reachable_fresh. repeat split; reflexivity.
  - exists m. split; [exact Hm|]. split.
    + rewrite (Hl "name" "name") by (apply (bool_decide_unpack _); vm_compute; exact I).
      vm_compute. reflexivity.
    + rewrite (Hl "end_date" "endDate")
        by (apply (bool_decide_unpack _); vm_compute; exact I).
      vm_compute. reflexivity.
Defined.

(** X14. The two-step confirmation. With the flag up, the submit event only
    opens the modal; the confirming click then closes it and posts the
    payload of the form as it stands, whatever the flag says; and the flag
    is still up afterwards, so that a later submit event asks again. *)
Theorem confirmation_flow (net1 net2 : fetch_outcome string) (s : Page)
    (fd : FormData) :
  hasLowConfidence s = true →
  is_Some (submitBtn s) →
  collectFormData s = Ok fd →
  let s1 := (submit net1 s).1 in
  let s2 := (confirmSubmit net2 s1).1 in
  modalShown s1 = true ∧ requests s1 = requests s ∧ location s1 = location s ∧
  modalShown s2 = false ∧ requests s2 = requests s ++ [fd] ∧
  hasLowConfidence s2 = true.
Proof.
  intros Hlow [b Hb] Hfd s1 s2. subst s2 s1. unfold submit. rewrite Hlow.
  cbn [fst]. unfold confirmSubmit.
  destruct (submitForm_frame net2 (with_modalShown false (with_modalShown true s)))
    as (_ & _ & _ & -> & -> & _).
  split_and!; try done.
  assert (collectFormData (with_modalShown false (with_modalShown true s)) = Ok fd)
    as Hfd' by (rewrite <- Hfd; by apply collectFormData_ext).
  rewrite submitForm_eq, Hfd'. cbn [submitBtn with_modalShown]. rewrite Hb.
  cbn zeta. unfold catch. by destruct net2 as [m|[] [u|m]].
Qed.

Lemma confirmation_flow_witness :
  let s := autoFillForm sample_fields review_page in
  modalShown (submit (FetchRejected "x") s).1 = true ∧
  length (requests
    (confirmSubmit (FetchRejected "Failed to fetch")
       (submit (FetchRejected "x") s).1).1) = 1.
Proof.
  cbn zeta.
  assert (∃ fd, collectFormData (autoFillForm sample_fields review_page) = Ok fd)
    as [fd Hfd] by (eexists; vm_compute; reflexivity).
  destruct (confirmation_flow (FetchRejected "x") (FetchRejected "Failed to fetch")
              (autoFillForm sample_fields review_page) fd)
    as (H1 & _ & _ & _ & H2 & _).
  - vm_compute. reflexivity.
  - eexists. vm_compute. reflexivity.
  - exact Hfd.
  - split; [exact H1|]. rewrite H2. vm_compute. reflexivity.
Defined.

(** X15. Loading the page fails open. The extraction data are auto-filled
    only when the page was reached from an upload ([fromUpload] is "1" and
    the upload id is not empty) and the body of the answer parses, whatever
    the status of the answer; in every other case the page is left exactly
    as it is. In no case does the load issue a submission, leave the page,
    show an error, open the modal or touch the submit button. *)
Theorem pageLoad_fails_open (fromUpload : string)
    (net : fetch_outcome (gmap string ExtractedField)) (s : Page) :
  let s' := pageLoad fromUpload net s in
  (requests s' = requests s ∧ location s' = location s ∧
   errorSection_display s' = errorSection_display s ∧
   errorSection_textContent s' = errorSection_textContent s ∧
   modalShown s' = modalShown s ∧ submitBtn s' = submitBtn s) ∧
  (∀ ok fields, fromUpload = "1" → uploadId s ≠ "" →
     net = FetchResponse ok (JsonData fields) → s' = autoFillForm fields s) ∧
  (fromUpload ≠ "1" ∨ uploadId s = "" ∨
   (∀ ok fields, net ≠ FetchResponse ok (JsonData fields)) → s' = s).
Proof.
  intros s'. subst s'. unfold pageLoad, loadExtractedData. split; [|split].
  - destruct (bool_decide (fromUpload = "1") && negb (bool_decide (uploadId s = "")));
      [|done].
    destruct net as [m|ok [fields|m]]; try done.
    destruct (autoFillForm_rest fields s) as (_ & H1 & H2 & H3 & H4 & H5 & H6).
    split_and!; assumption.
  - intros ok fields -> Hid ->.
    by rewrite bool_decide_eq_true_2, bool_decide_eq_false_2.
  - intros [H|[H|H]].
    + by rewrite bool_decide_eq_false_2.
    + by rewrite (bool_decide_eq_true_2 (uploadId s = "")), andb_false_r.
    + destruct (bool_decide (fromUpload = "1") && negb (bool_decide (uploadId s = "")));
        [|done].
      destruct net as [m|ok [fields|m]]; try done. by destruct (H ok fields).
Qed.

(** * Further properties of upload.js *)

Section Trim.
Import Upload.







Lemma hasFile_files (p : Page) : hasFile p = true ↔ files p ≠ [].
Proof.
  unfold hasFile. rewrite bool_decide_eq_true.
  destruct (files p); simpl; split; try done; lia.
Qed.

End Trim.

(** X16. A success answer whose body cannot be parsed is handled like a
    failed request: the error region shows "Extraction failed: " followed by
    the message of the parse error, the progress section is hidden, the
    button is enabled again, the page stays where it is, and the one request
    of the click is the only one issued. *)
Theorem upload_unparsable_answer (message : string) (p : Upload.Page) :
  Upload.hasFile p ≠ Upload.hasText p →
  let q := Upload.click (FetchResponse true (JsonRejected message)) p in
  Upload.errorSection_display q = "block" ∧
  Upload.errorSection_textContent q = "Extraction failed: " +:+ message ∧
  Upload.progressSection_display q = "none" ∧
  Upload.extractBtn_disabled q = false ∧
  Upload.location q = Upload.location p ∧
  Upload.requests q = Upload.requests p ++ [Upload.request p].
Proof.
  intros Hne q. subst q. unfold Upload.click.
  destruct (Upload.hasFile p), (Upload.hasText p); done.
Qed.

Lemma upload_unparsable_answer_witness :
  Upload.errorSection_textContent
    (Upload.click (FetchResponse true (JsonRejected "Unexpected end of JSON input"))
       pasted_page)
  = "Extraction failed: Unexpected end of JSON input".
Proof.
  refine (proj1 (proj2 (upload_unparsable_answer "Unexpected end of JSON input"
                          pasted_page _))).
  vm_compute. discriminate.
Defined.

(** X17. What a click sends. With a file chosen (and no text), the request
    is the multipart form of the first file, the other chosen files being
    left out; with text pasted (and no file), it is the JSON form of the
    text exactly as it stands in the text area, surrounding white space
    included, although the validation looked at the trimmed text. *)
Theorem upload_request_body (net : fetch_outcome string) (p : Upload.Page) :
  (∀ file others, Upload.files p = file :: others → Upload.hasText p = false →
     Upload.requests (Upload.click net p)
     = Upload.requests p ++ [Upload.Multipart file]) ∧
  (Upload.files p = [] → Upload.hasText p = true →
     Upload.requests (Upload.click net p)
     = Upload.requests p ++ [Upload.JsonText (Upload.text p)]).
Proof.
  split.
  - intros file others Hf Ht.
    destruct (click_cases net p) as [(H & _)|[(_ & H & _)|(_ & ->)]].
    + apply not_true_iff_false in H. destruct H. apply hasFile_files.
      by rewrite Hf.
    + congruence.
    + unfold Upload.request. by rewrite Hf.
  - intros Hf Ht.
    destruct (click_cases net p) as [(_ & H & _)|[(H & _)|(_ & ->)]].
    + congruence.
    + apply hasFile_files in H. done.
    + unfold Upload.request. by rewrite Hf.
Qed.


(** With two files chosen and a blank text area, the first file is sent. *)
Example chosen_page_sends_first_file :
  Upload.requests (Upload.click (FetchRejected "Failed to fetch") chosen_page)
  = [Upload.Multipart "certificate.pdf"].
Proof. reflexivity. Qed.
